(** * Request shaping of the Speech to Text v1 client

    A shallow embedding of [watson_developer_cloud/speech_to_text_v1.py]:
    every method of [SpeechToTextV1] becomes a function in a state and
    error monad over the transport, which records the request descriptors
    it is handed.  Python values are embedded as the inductive [pyval],
    with the semantics of Python 3; the strings of the program are Rocq
    strings read as sequences of code points below 256.  The base class
    [WatsonService] is not part of the sources at hand: what the service
    uses of it is modelled from the specification. *)

From Stdlib Require Import Ascii String ZArith List Bool.
From stdpp Require Import gmap strings list fin_maps pretty.

Local Open Scope string_scope.

(** ** Python values *)

Module Py.

(** The values that flow into query parameters, headers, URLs and JSON
    bodies.  A [PDict] keeps its insertion order, which [json.dumps]
    follows.  Floating point numbers are not represented. *)
#[warnings="-register-all"]
Inductive pyval : Type :=
| PNone
| PBool (b : bool)
| PInt (n : Z)
| PStr (s : string)
| PList (l : list pyval)
| PDict (d : list (string * pyval)).

(** [v is None] *)
Definition is_None (v : pyval) : bool :=
  match v with PNone => true | _ => false end.

(** [bool(v)]: the truth value tested by [if v:], [not v] and [v or w]. *)
Definition truthy (v : pyval) : bool :=
  match v with
  | PNone => false
  | PBool b => b
  | PInt n => negb (n =? 0)%Z
  | PStr EmptyString => false
  | PStr (String _ _) => true
  | PList [] => false
  | PList (_ :: _) => true
  | PDict [] => false
  | PDict (_ :: _) => true
  end.

(** [isinstance(v, str)] *)
Definition is_str (v : pyval) : bool :=
  match v with PStr _ => true | _ => false end.

(** [v in [s1, s2, ...]] for a list of string literals: only a string
    compares equal to a string. *)
Definition in_strs (v : pyval) (l : list string) : bool :=
  match v with
  | PStr s => existsb (String.eqb s) l
  | _ => false
  end.

(** *** Characters *)

Definition dquote : ascii := "034"%char.
Definition squote : ascii := "039"%char.
Definition backslash : ascii := "092"%char.

Definition code (c : ascii) : N := N_of_ascii c.

Definition hex_lower (n : N) : ascii :=
  ascii_of_N (if (n <? 10)%N then 48 + n else 87 + n).

Definition hex_upper (n : N) : ascii :=
  ascii_of_N (if (n <? 10)%N then 48 + n else 55 + n).

Definition hex2_lower (n : N) : string :=
  String (hex_lower (n / 16)) (String (hex_lower (n mod 16)) EmptyString).

Definition hex2_upper (n : N) : string :=
  String (hex_upper (n / 16)) (String (hex_upper (n mod 16)) EmptyString).

Fixpoint flat_map_string (f : ascii -> string) (s : string) : string :=
  match s with
  | EmptyString => EmptyString
  | String c r => f c +:+ flat_map_string f r
  end.

Fixpoint contains_char (a : ascii) (s : string) : bool :=
  match s with
  | EmptyString => false
  | String c r => Ascii.eqb a c || contains_char a r
  end.

(** [sep.join(l)] *)
Fixpoint join (sep : string) (l : list string) : string :=
  match l with
  | [] => EmptyString
  | [x] => x
  | x :: r => x +:+ sep +:+ join sep r
  end.

(** *** [repr] and [str] *)

(** One character of [repr(s)] inside the quote [q] (Python 3). *)
Definition repr_char (q c : ascii) : string :=
  let n := code c in
  if Ascii.eqb c q || Ascii.eqb c backslash then String backslash (String c EmptyString)
  else if (n =? 9)%N then String backslash "t"
  else if (n =? 10)%N then String backslash "n"
  else if (n =? 13)%N then String backslash "r"
  else if (n <? 32)%N || (n =? 127)%N then String backslash ("x" +:+ hex2_lower n)
  else if (n <? 127)%N then String c EmptyString
  else if (n <=? 160)%N || (n =? 173)%N then String backslash ("x" +:+ hex2_lower n)
  else String c EmptyString.

(** [repr(s)] of a string: single quotes unless the text has a single
    quote and no double quote. *)
Definition repr_str (s : string) : string :=
  let q := if contains_char squote s && negb (contains_char dquote s)
           then dquote else squote in
  String q (flat_map_string (repr_char q) s +:+ String q EmptyString).

(** [repr(v)] *)
Fixpoint repr (v : pyval) : string :=
  match v with
  | PNone => "None"
  | PBool true => "True"
  | PBool false => "False"
  | PInt n => pretty n
  | PStr s => repr_str s
  | PList l => "[" +:+ join ", " (map repr l) +:+ "]"
  | PDict d =>
      "{" +:+ join ", " (map (fun kv => repr_str (fst kv) +:+ ": " +:+ repr (snd kv)) d) +:+ "}"
  end.

(** [str(v)]: the text of a string is the string itself. *)
Definition str (v : pyval) : string :=
  match v with
  | PStr s => s
  | _ => repr v
  end.

(** *** [json.dumps] *)

(** One character of a JSON string, with [ensure_ascii] left at its
    default: everything outside the printable ASCII range is escaped. *)
Definition json_char (c : ascii) : string :=
  let n := code c in
  if Ascii.eqb c dquote || Ascii.eqb c backslash then String backslash (String c EmptyString)
  else if (n =? 8)%N then String backslash "b"
  else if (n =? 9)%N then String backslash "t"
  else if (n =? 10)%N then String backslash "n"
  else if (n =? 12)%N then String backslash "f"
  else if (n =? 13)%N then String backslash "r"
  else if (n <? 32)%N || (126 <? n)%N then String backslash ("u00" +:+ hex2_lower n)
  else String c EmptyString.

Definition json_str (s : string) : string :=
  String dquote (flat_map_string json_char s +:+ String dquote EmptyString).

(** [json.dumps(v)] with the default separators [", "] and [": "]. *)
Fixpoint json_dumps (v : pyval) : string :=
  match v with
  | PNone => "null"
  | PBool true => "true"
  | PBool false => "false"
  | PInt n => pretty n
  | PStr s => json_str s
  | PList l => "[" +:+ join ", " (map json_dumps l) +:+ "]"
  | PDict d =>
      "{" +:+ join ", " (map (fun kv => json_str (fst kv) +:+ ": " +:+ json_dumps (snd kv)) d) +:+ "}"
  end.

(** The keys of a dict, in insertion order. *)
Definition keys (d : list (string * pyval)) : list string := map fst d.

(** [d[k]] on a dict given as its item list. *)
Fixpoint getitem (d : list (string * pyval)) (k : string) : option pyval :=
  match d with
  | [] => None
  | (k', v) :: r => if String.eqb k' k then Some v else getitem r k
  end.

End Py.
Export Py.

(** [template.format(a0, a1, ...)] for templates whose fields are [{0}] to
    [{9}]: each field is replaced by the [str] of the argument it
    numbers; a field beyond the arguments raises [IndexError], here
    [None]. *)
Definition is_digit (c : ascii) : bool :=
  (48 <=? code c)%N && (code c <=? 57)%N.

Fixpoint format (template : string) (args : list pyval) : option string :=
  match template with
  | EmptyString => Some EmptyString
  | String c t1 =>
      match t1 with
      | String d (String e t3) =>
          if Ascii.eqb c "{" && is_digit d && Ascii.eqb e "}" then
            match args !! N.to_nat (code d - 48), format t3 args with
            | Some a, Some r => Some (str a +:+ r)
            | _, _ => None
            end
          else option_map (String c) (format t1 args)
      | _ => option_map (String c) (format t1 args)
      end
  end.

(** ** Payloads and multipart parts *)

(** A file-like object: [hasattr(f, 'name')] holds when [file_name] is
    [Some]. *)
Record fileobj : Type := mkFile {
  file_name : option pyval;
  file_content : string
}.

(** What is sent as a body or as the content of a part: a plain value
    ([None], a text), raw bytes, or an open file. *)
Inductive payload : Type :=
| Val (v : pyval)
| Bytes (b : string)
| File (f : fileobj).

Definition payload_truthy (p : payload) : bool :=
  match p with
  | Val v => truthy v
  | Bytes EmptyString => false
  | Bytes (String _ _) => true
  | File _ => true
  end.

(** [getattr(p, 'name')] when [hasattr(p, 'name')]. *)
Definition name_attr (p : payload) : option pyval :=
  match p with
  | File f => file_name f
  | _ => None
  end.

(** A part of a multipart body: the tuple [(filename, content, content_type)]. *)
Definition part : Type := pyval * payload * pyval.

(** ** Errors, the transport and the monad *)

Inductive exn : Type :=
| ValueError (msg : string)
| KeyError (msg : string)
| TypeError
| IndexError
| AttributeError
| RemoteRequestError (status : Z) (body : string).

Inductive result (A : Type) : Type :=
| Returned (a : A)
| Raised (e : exn).
Arguments Returned {A} a.
Arguments Raised {A} e.

(** The request descriptor handed to the transport. *)
Record Request : Type := mkRequest {
  req_method : string;
  req_url : string;
  req_headers : gmap string pyval;
  req_params : gmap string pyval;
  req_data : payload;
  req_files : gmap string part;
  req_stream : bool;
  req_accept_json : bool
}.

(** The transport collaborator: what the remote side answers to a
    descriptor, and the descriptors it has been handed so far. *)
Record Transport : Type := mkTransport {
  respond : Request -> result pyval;
  calls : list Request
}.

Definition M (A : Type) : Type := Transport -> result A * Transport.

Definition ret {A} (a : A) : M A := fun t => (Returned a, t).

Definition raise {A} (e : exn) : M A := fun t => (Raised e, t).

Definition bind {A B} (m : M A) (k : A -> M B) : M B :=
  fun t =>
    match m t with
    | (Returned a, t') => k a t'
    | (Raised e, t') => (Raised e, t')
    end.

Definition lift {A} (r : result A) : M A := fun t => (r, t).

Notation "'let*' x ':=' m 'in' k" := (bind m (fun x => k))
  (at level 10, x name, m at level 100, k at level 200).

(** ** The base service *)

Module WatsonService.

(** Modelled from the spec: the omission rule of the base service, whose
    code is in [watson_service.py]; an entry with no supplied value is
    left out of the mapping, the others are kept as they are. *)
Definition _remove_null_values {V} (is_null : V -> bool) (d : gmap string V) : gmap string V :=
  filter (fun kv => is_null (snd kv) = false) d.

(** Modelled from the spec: the characters that the percent-encoding of
    a path variable, whose code is in [watson_service.py], leaves as
    they are.  Letters, digits and [-._~] stand for themselves; every
    other character is written [%XX] with upper-case digits, a code
    point above 127 through its two UTF-8 bytes. *)
Definition unreserved (c : ascii) : bool :=
  let n := code c in
  ((65 <=? n) && (n <=? 90) || (97 <=? n) && (n <=? 122) || (48 <=? n) && (n <=? 57)
   || (n =? 45) || (n =? 46) || (n =? 95) || (n =? 126))%N.

(** Modelled from the spec: one escaped byte of a path variable. *)
Definition percent (n : N) : string := String "%" (hex2_upper n).

(** Modelled from the spec: the percent-encoding of one character. *)
Definition quote_char (c : ascii) : string :=
  let n := code c in
  if unreserved c then String c EmptyString
  else if (n <? 128)%N then percent n
  else percent (192 + n / 64) +:+ percent (128 + n mod 64).

(** Modelled from the spec: the percent-encoding of a path variable,
    character by character. *)
Definition quote (s : string) : string := flat_map_string quote_char s.

(** Modelled from the spec: [WatsonService._encode_path_vars], whose
    code is in [watson_service.py]; path variables are string values and
    each is percent-encoded on its own; a value that is not a string is
    refused. *)
Fixpoint _encode_path_vars (args : list pyval) : result (list pyval) :=
  match args with
  | [] => Returned []
  | PStr s :: r =>
      match _encode_path_vars r with
      | Returned l => Returned (PStr (quote s) :: l)
      | Raised e => Raised e
      end
  | _ :: _ => Raised TypeError
  end.

(** Modelled from the spec: [WatsonService._convert_list], whose code is
    in [watson_service.py]; a list is sent as one comma-joined string,
    any other value as it is. *)
Definition _convert_list (val : pyval) : pyval :=
  match val with
  | PList l => PStr (join "," (map str l))
  | _ => val
  end.

(** Modelled from the spec: [WatsonService.request], whose code is in
    [watson_service.py]; absent entries are stripped from the header,
    query-parameter and file-part mappings, the descriptor is handed to
    the transport, and what the transport answers (a parsed JSON value
    or an error) is passed on unchanged. *)
Definition request (method url : string)
    (headers params : option (gmap string pyval)) (data : payload)
    (files : option (gmap string (option part)))
    (stream accept_json : bool) : M pyval :=
  fun t =>
    let r := {| req_method := method;
                req_url := url;
                req_headers := _remove_null_values is_None (default ∅ headers);
                req_params := _remove_null_values is_None (default ∅ params);
                req_data := data;
                req_files := omap id (default ∅ files);
                req_stream := stream;
                req_accept_json := accept_json |} in
    (respond t r, {| respond := respond t; calls := calls t ++ [r] |}).

End WatsonService.
Export WatsonService.

(** ** The Speech to Text v1 service *)

Module SpeechToTextV1.

(** A dict literal. *)
Definition dict {V} (items : list (string * V)) : gmap string V := list_to_map items.

(** [template.format(...)] inside the monad. *)
Definition fmt (template : string) (args : list pyval) : M string :=
  match format template args with
  | Some s => ret s
  | None => raise IndexError
  end.

(** *** sessionless *)

Definition recognize (audio : payload)
    (content_type continuous model customization_id inactivity_timeout
     keywords keywords_threshold max_alternatives
     word_alternatives_threshold word_confidence timestamps
     interim_results profanity_filter smart_formatting speaker_labels
     customization_weight : pyval) : M pyval :=
  let headers := dict [("content-type", content_type)] in
  let params := dict [("continuous", continuous);
                      ("inactivity_timeout", inactivity_timeout);
                      ("keywords", keywords);
                      ("keywords_threshold", keywords_threshold);
                      ("max_alternatives", max_alternatives);
                      ("model", model);
                      ("customization_id", customization_id);
                      ("word_alternatives_threshold", word_alternatives_threshold);
                      ("word_confidence", word_confidence);
                      ("timestamps", timestamps);
                      ("interim_results", interim_results);
                      ("profanity_filter", profanity_filter);
                      ("smart_formatting", smart_formatting);
                      ("speaker_labels", speaker_labels);
                      ("customization_weight", customization_weight)] in
  request "POST" "/v1/recognize" (Some headers) (Some params) audio None true true.

(** *** models *)

Definition models : M pyval :=
  request "GET" "/v1/models" None None (Val PNone) None false true.

Definition get_model (model_id : pyval) : M pyval :=
  let* url := fmt "/v1/models/{0}" [model_id] in
  request "GET" url None None (Val PNone) None false true.

(** *** sessions *)

Definition create_session
    (model customization_id acoustic_customization_id customization_weight : pyval)
    : M pyval :=
  let params := dict [("model", model);
                      ("customization_id", customization_id);
                      ("acoustic_customization_id", acoustic_customization_id);
                      ("customization_weight", customization_weight)] in
  let url := "/v1/sessions" in
  let* response := request "POST" url None (Some params) (Val PNone) None false true in
  ret response.

Definition delete_session (session_id : pyval) : M pyval :=
  if is_None session_id then raise (ValueError "session_id must be provided")
  else
    let* vars := lift (_encode_path_vars [session_id]) in
    let* url := fmt "/v1/sessions/{0}" vars in
    let* _ := request "DELETE" url None None (Val PNone) None false true in
    ret PNone.

Definition get_session (session_id : pyval) : M pyval :=
  if is_None session_id then raise (ValueError "session_id must be provided")
  else
    let* vars := lift (_encode_path_vars [session_id]) in
    let* url := fmt "/v1/sessions/{0}/recognize" vars in
    let* response := request "GET" url None None (Val PNone) None false true in
    ret response.

(** [content_type] has the default ['audio/basic']: [None] stands for an
    argument that is not passed. *)
Definition recognize_session (session_id transfer_encoding : pyval)
    (audio : payload) (content_type : option pyval)
    (sequence_id inactivity_timeout keywords keywords_threshold
     max_alternatives word_alternatives_threshold word_confidence
     timestamps profanity_filter smart_formatting speaker_labels
     metadata : pyval)
    (upload : payload) (upload_content_type upload_filename : pyval)
    : M pyval :=
  let content_type := default (PStr "audio/basic") content_type in
  if is_None session_id then raise (ValueError "session_id must be provided")
  else
    let headers := dict [("Transfer-Encoding", transfer_encoding);
                         ("content-type", content_type)] in
    let params := dict [("sequence_id", sequence_id);
                        ("inactivity_timeout", inactivity_timeout);
                        ("keywords", _convert_list keywords);
                        ("keywords_threshold", keywords_threshold);
                        ("max_alternatives", max_alternatives);
                        ("word_alternatives_threshold", word_alternatives_threshold);
                        ("word_confidence", word_confidence);
                        ("timestamps", timestamps);
                        ("profanity_filter", profanity_filter);
                        ("smart_formatting", smart_formatting);
                        ("speaker_labels", speaker_labels)] in
    let data := audio in
    let metadata_tuple : option part :=
      if truthy metadata then Some (PNone, Val metadata, PStr "text/plain")
      else None in
    let upload_tuple : option part :=
      if payload_truthy upload then
        let upload_filename :=
          match name_attr upload with
          | Some name => if negb (truthy upload_filename) then name else upload_filename
          | None => upload_filename
          end in
        let mime_type :=
          if truthy upload_content_type then upload_content_type
          else PStr "application/octet-stream" in
        Some (upload_filename, upload, mime_type)
      else None in
    let* vars := lift (_encode_path_vars [session_id]) in
    let* url := fmt "/v1/sessions/{0}/recognize" vars in
    let* response :=
      request "POST" url (Some headers) (Some params) data
              (Some (dict [("metadata", metadata_tuple); ("upload", upload_tuple)]))
              false true in
    ret response.

(** *** customLanguageModels *)

(** [description] has the default [''] and [base_model] the default
    ['en-US_BroadbandModel']: [None] stands for an argument that is not
    passed. *)
Definition create_custom_model (name : pyval) (description base_model : option pyval)
    : M pyval :=
  let description := default (PStr EmptyString) description in
  let base_model := default (PStr "en-US_BroadbandModel") base_model in
  let json_body := json_dumps (PDict [("name", name);
                                      ("description", description);
                                      ("base_model_name", base_model)]) in
  request "POST" "/v1/customizations"
          (Some (dict [("content-type", PStr "application/json")])) None
          (Val (PStr json_body)) None false true.

Definition train_custom_model (customization_id customization_weight word_type : pyval)
    : M pyval :=
  let params := dict [("customization_weight", customization_weight);
                      ("word_type", word_type)] in
  let* url := fmt "/v1/customizations/{0}/train" [customization_id] in
  request "POST" url None (Some params) (Val PNone) None false true.

Definition list_custom_models : M pyval :=
  request "GET" "/v1/customizations" None None (Val PNone) None false true.

Definition get_custom_model (modelid : pyval) : M pyval :=
  let* url := fmt "/v1/customizations/{0}" [modelid] in
  request "GET" url None None (Val PNone) None false true.

Definition delete_custom_model (modelid : pyval) : M pyval :=
  let* url := fmt "/v1/customizations/{0}" [modelid] in
  request "DELETE" url None None (Val PNone) None false true.

(** *** customCorpora *)

Definition list_corpora (customization_id : pyval) : M pyval :=
  let url := "/v1/customizations/{0}/corpora" in
  let* url := fmt url [customization_id] in
  request "GET" url None None (Val PNone) None false true.

Definition add_corpus (customization_id corpus_name : pyval) (file_data : payload)
    (allow_overwrite : pyval) : M pyval :=
  let url := "/v1/customizations/{0}/corpora/{1}" in
  let allow_overwrite := if is_None allow_overwrite then PBool false else allow_overwrite in
  let headers := dict [("Content-Type", PStr "application/octet-stream")] in
  let* url := fmt url [customization_id; corpus_name] in
  request "POST" url (Some headers) (Some (dict [("allow_overwrite", allow_overwrite)]))
          file_data None false true.

Definition get_corpus (customization_id corpus_name : pyval) : M pyval :=
  let url := "/v1/customizations/{0}/corpora/{1}" in
  let* url := fmt url [customization_id; corpus_name] in
  request "GET" url None None (Val PNone) None false true.

Definition delete_corpus (customization_id corpus_name : pyval) : M pyval :=
  let url := "/v1/customizations/{0}/corpora/{1}" in
  let* url := fmt url [customization_id; corpus_name] in
  request "DELETE" url None None (Val PNone) None false true.

(** *** customWords *)

(** The class [CustomWord]: three private fields, read through three
    properties and projected by [__dict__]. *)
Record CustomWord : Type := mkCustomWord {
  _word : pyval;
  _sounds_like : pyval;
  _display_as : pyval
}.

Module CustomWord.

(** [CustomWord(word, sounds_like, display_as)] *)
Definition __init__ (word sounds_like display_as : pyval) : CustomWord :=
  {| _word := word; _sounds_like := sounds_like; _display_as := display_as |}.

Definition word (self : CustomWord) : pyval := _word self.

Definition sounds_like (self : CustomWord) : pyval := _sounds_like self.

Definition display_as (self : CustomWord) : pyval := _display_as self.

Definition __dict__ (self : CustomWord) : list (string * pyval) :=
  [("word", word self);
   ("sounds_like", sounds_like self);
   ("display_as", display_as self)].

End CustomWord.

Definition add_custom_words (customization_id : pyval) (custom_words : list CustomWord)
    : M pyval :=
  let url := "/v1/customizations/{0}/words" in
  let payload := PDict [("words", PList (map (fun x => PDict (CustomWord.__dict__ x))
                                             custom_words))] in
  let* url := fmt url [customization_id] in
  request "POST" url (Some (dict [("content-type", PStr "application/json")])) None
          (Val (PStr (json_dumps payload))) None false true.

Definition add_custom_word (customization_id : pyval) (custom_word : CustomWord)
    : M pyval :=
  let url := "/v1/customizations/{0}/words/{1}" in
  let custom_word_fragment := PDict [("sounds_like", CustomWord.sounds_like custom_word);
                                     ("display_as", CustomWord.display_as custom_word)] in
  let* url := fmt url [customization_id; CustomWord.word custom_word] in
  request "PUT" url (Some (dict [("content-type", PStr "application/json")])) None
          (Val (PStr (json_dumps custom_word_fragment))) None false true.

Definition list_custom_words (customization_id word_type sort : pyval) : M pyval :=
  let url := "/v1/customizations/{0}/words" in
  let qs : gmap string pyval := ∅ in
  let* qs :=
    if truthy word_type then
      if in_strs word_type ["all"; "user"; "corpora"] then ret (<["word_type" := word_type]> qs)
      else raise (KeyError "word type must be all, user, or corpora")
    else ret qs in
  let* qs :=
    if truthy sort then
      if in_strs sort ["alphabetical"; "count"] then ret (<["sort" := sort]> qs)
      else raise (KeyError "sort must be alphabetical or count")
    else ret qs in
  let* url := fmt url [customization_id] in
  request "GET" url None (Some qs) (Val PNone) None false true.

(** The argument of [get_custom_word] and [delete_custom_word]: a plain
    value, or a [CustomWord] object. *)
Inductive word_arg : Type :=
| Plain (v : pyval)
| Record_ (w : CustomWord).

(** [custom_word if isinstance(custom_word, str) else custom_word.word];
    a plain value that is not a string has no attribute [word]. *)
Definition word_of (custom_word : word_arg) : M pyval :=
  match custom_word with
  | Plain v => if is_str v then ret v else raise AttributeError
  | Record_ w => ret (CustomWord.word w)
  end.

Definition get_custom_word (customization_id : pyval) (custom_word : word_arg) : M pyval :=
  let url := "/v1/customizations/{0}/words/{1}" in
  let* word := word_of custom_word in
  let* url := fmt url [customization_id; word] in
  request "GET" url None None (Val PNone) None false true.

Definition delete_custom_word (customization_id : pyval) (custom_word : word_arg) : M pyval :=
  let url := "/v1/customizations/{0}/words/{1}" in
  let* word := word_of custom_word in
  let* url := fmt url [customization_id; word] in
  request "DELETE" url None None (Val PNone) None false true.





End SpeechToTextV1.
Export SpeechToTextV1.

(** ** Every operation as one call *)

Inductive operation : Type :=
| Recognize (audio : payload)
    (content_type continuous model customization_id inactivity_timeout
     keywords keywords_threshold max_alternatives
     word_alternatives_threshold word_confidence timestamps
     interim_results profanity_filter smart_formatting speaker_labels
     customization_weight : pyval)
| Models
| GetModel (model_id : pyval)
| CreateSession
    (model customization_id acoustic_customization_id customization_weight : pyval)
| DeleteSession (session_id : pyval)
| GetSession (session_id : pyval)
| RecognizeSession (session_id transfer_encoding : pyval)
    (audio : payload) (content_type : option pyval)
    (sequence_id inactivity_timeout keywords keywords_threshold
     max_alternatives word_alternatives_threshold word_confidence
     timestamps profanity_filter smart_formatting speaker_labels
     metadata : pyval)
    (upload : payload) (upload_content_type upload_filename : pyval)
| CreateCustomModel (name : pyval) (description base_model : option pyval)
| TrainCustomModel (customization_id customization_weight word_type : pyval)
| ListCustomModels
| GetCustomModel (modelid : pyval)
| DeleteCustomModel (modelid : pyval)
| ListCorpora (customization_id : pyval)
| AddCorpus (customization_id corpus_name : pyval) (file_data : payload)
    (allow_overwrite : pyval)
| GetCorpus (customization_id corpus_name : pyval)
| DeleteCorpus (customization_id corpus_name : pyval)
| AddCustomWords (customization_id : pyval) (custom_words : list CustomWord)
| AddCustomWord (customization_id : pyval) (custom_word : CustomWord)
| ListCustomWords (customization_id word_type sort : pyval)
| GetCustomWord (customization_id : pyval) (custom_word : word_arg)
| DeleteCustomWord (customization_id : pyval) (custom_word : word_arg).

Definition run (op : operation) : M pyval :=
  match op with
  | Recognize audio content_type continuous model customization_id
      inactivity_timeout keywords keywords_threshold max_alternatives
      word_alternatives_threshold word_confidence timestamps
      interim_results profanity_filter smart_formatting speaker_labels
      customization_weight =>
      recognize audio content_type continuous model customization_id
        inactivity_timeout keywords keywords_threshold max_alternatives
        word_alternatives_threshold word_confidence timestamps
        interim_results profanity_filter smart_formatting speaker_labels
        customization_weight
  | Models => models
  | GetModel model_id => get_model model_id
  | CreateSession model customization_id acoustic_customization_id
      customization_weight =>
      create_session model customization_id acoustic_customization_id
        customization_weight
  | DeleteSession session_id => delete_session session_id
  | GetSession session_id => get_session session_id
  | RecognizeSession session_id transfer_encoding audio content_type
      sequence_id inactivity_timeout keywords keywords_threshold
      max_alternatives word_alternatives_threshold word_confidence
      timestamps profanity_filter smart_formatting speaker_labels
      metadata upload upload_content_type upload_filename =>
      recognize_session session_id transfer_encoding audio content_type
        sequence_id inactivity_timeout keywords keywords_threshold
        max_alternatives word_alternatives_threshold word_confidence
        timestamps profanity_filter smart_formatting speaker_labels
        metadata upload upload_content_type upload_filename
  | CreateCustomModel name description base_model =>
      create_custom_model name description base_model
  | TrainCustomModel customization_id customization_weight word_type =>
      train_custom_model customization_id customization_weight word_type
  | ListCustomModels => list_custom_models
  | GetCustomModel modelid => get_custom_model modelid
  | DeleteCustomModel modelid => delete_custom_model modelid
  | ListCorpora customization_id => list_corpora customization_id
  | AddCorpus customization_id corpus_name file_data allow_overwrite =>
      add_corpus customization_id corpus_name file_data allow_overwrite
  | GetCorpus customization_id corpus_name => get_corpus customization_id corpus_name
  | DeleteCorpus customization_id corpus_name =>
      delete_corpus customization_id corpus_name
  | AddCustomWords customization_id custom_words =>
      add_custom_words customization_id custom_words
  | AddCustomWord customization_id custom_word =>
      add_custom_word customization_id custom_word
  | ListCustomWords customization_id word_type sort =>
      list_custom_words customization_id word_type sort
  | GetCustomWord customization_id custom_word =>
      get_custom_word customization_id custom_word
  | DeleteCustomWord customization_id custom_word =>
      delete_custom_word customization_id custom_word
  end.

(** The name of an optional parameter, when its argument is not [None]. *)
Definition opt (name : string) (arg : pyval) : list string :=
  if is_None arg then [] else [name].

(** The optional query parameters of a call that the caller supplied
    with a value other than [None], by the names of the signature. *)
Definition supplied (op : operation) : list string :=
  match op with
  | Recognize _ _ continuous model customization_id inactivity_timeout
      keywords keywords_threshold max_alternatives
      word_alternatives_threshold word_confidence timestamps
      interim_results profanity_filter smart_formatting speaker_labels
      customization_weight =>
      opt "continuous" continuous ++ opt "model" model
      ++ opt "customization_id" customization_id
      ++ opt "inactivity_timeout" inactivity_timeout
      ++ opt "keywords" keywords ++ opt "keywords_threshold" keywords_threshold
      ++ opt "max_alternatives" max_alternatives
      ++ opt "word_alternatives_threshold" word_alternatives_threshold
      ++ opt "word_confidence" word_confidence ++ opt "timestamps" timestamps
      ++ opt "interim_results" interim_results
      ++ opt "profanity_filter" profanity_filter
      ++ opt "smart_formatting" smart_formatting
      ++ opt "speaker_labels" speaker_labels
      ++ opt "customization_weight" customization_weight
  | CreateSession model customization_id acoustic_customization_id
      customization_weight =>
      opt "model" model ++ opt "customization_id" customization_id
      ++ opt "acoustic_customization_id" acoustic_customization_id
      ++ opt "customization_weight" customization_weight
  | RecognizeSession _ _ _ _ sequence_id inactivity_timeout keywords
      keywords_threshold max_alternatives word_alternatives_threshold
      word_confidence timestamps profanity_filter smart_formatting
      speaker_labels _ _ _ _ =>
      opt "sequence_id" sequence_id
      ++ opt "inactivity_timeout" inactivity_timeout
      ++ opt "keywords" keywords ++ opt "keywords_threshold" keywords_threshold
      ++ opt "max_alternatives" max_alternatives
      ++ opt "word_alternatives_threshold" word_alternatives_threshold
      ++ opt "word_confidence" word_confidence ++ opt "timestamps" timestamps
      ++ opt "profanity_filter" profanity_filter
      ++ opt "smart_formatting" smart_formatting
      ++ opt "speaker_labels" speaker_labels
  | TrainCustomModel _ customization_weight word_type =>
      opt "customization_weight" customization_weight ++ opt "word_type" word_type
  | AddCorpus _ _ _ allow_overwrite => opt "allow_overwrite" allow_overwrite
  | ListCustomWords _ word_type sort => opt "word_type" word_type ++ opt "sort" sort
  | _ => []
  end.

(** A call hands the transport exactly one descriptor, [r]. *)
Definition handed {A} (m : M A) (t : Transport) (r : Request) : Prop :=
  snd (m t) = {| respond := respond t; calls := calls t ++ [r] |}.

(** The number of descriptors a call adds to the ones the transport has
    recorded. *)
Definition invocations {A} (m : M A) (t : Transport) : nat :=
  length (calls (snd (m t))) - length (calls t).

(** A call fails with [e] and the transport is not invoked. *)
Definition fails_fast {A} (m : M A) (t : Transport) (e : exn) : Prop :=
  m t = (Raised e, t).

(** A text between double quotes, as JSON writes a plain ASCII string. *)
Definition quoted (s : string) : string :=
  String dquote (s +:+ String dquote EmptyString).

(** The reconstruction of a [CustomWord] from its field mapping:
    [CustomWord(d['word'], d['sounds_like'], d['display_as'])]. *)
Definition rebuild (d : list (string * pyval)) : option CustomWord :=
  match getitem d "word", getitem d "sounds_like", getitem d "display_as" with
  | Some w, Some s, Some a => Some (CustomWord.__init__ w s a)
  | _, _, _ => None
  end.

(** A transport that has not been invoked and answers every request with
    [null]. *)
Definition idle : Transport :=
  {| respond := fun _ => Returned PNone; calls := [] |}.

(** A recognition call that names a model and leaves every other
    option out, and the descriptor it hands over. *)
Definition recognize_with_model : operation :=
  Recognize (Bytes "RIFF") (PStr "audio/wav") PNone (PStr "en-US_NarrowbandModel")
    PNone PNone PNone PNone PNone PNone PNone PNone PNone PNone PNone PNone PNone.

Definition recognize_with_model_request : Request :=
  {| req_method := "POST";
     req_url := "/v1/recognize";
     req_headers := {["content-type" := PStr "audio/wav"]};
     req_params := {["model" := PStr "en-US_NarrowbandModel"]};
     req_data := Bytes "RIFF";
     req_files := ∅;
     req_stream := true;
     req_accept_json := true |}.

(** A record with a word only. *)
Definition bare_word : CustomWord := CustomWord.__init__ (PStr "IEEE") PNone PNone.

(** The record of the spec's example. *)
Definition ieee : CustomWord :=
  CustomWord.__init__ (PStr "IEEE") (PList [PStr "i triple e"]) (PStr "IEEE").

(** What a call returns for the answer of the transport: the answer
    itself, but for [delete_session], which returns [None] where the
    transport returned a value. *)
Definition answered (op : operation) (answer : result pyval) : result pyval :=
  match op, answer with
  | DeleteSession _, Returned _ => Returned PNone
  | _, _ => answer
  end.

(** The operations that look into an argument before they build a
    request: the ones that check a session id or a filter, the ones that
    read the word of their argument, and the ones that read a record or
    serialize their arguments into a JSON body.  The others pass their
    arguments on as they are. *)
Definition guarded (op : operation) : bool :=
  match op with
  | DeleteSession _ | GetSession _
  | RecognizeSession _ _ _ _ _ _ _ _ _ _ _ _ _ _ _ _ _ _ _
  | ListCustomWords _ _ _ | GetCustomWord _ _ | DeleteCustomWord _ _
  | CreateCustomModel _ _ _ | AddCustomWords _ _ | AddCustomWord _ _ => true
  | _ => false
  end.

(** The errors that a call raises on its own. *)
Definition local_errors : list exn :=
  [ValueError "session_id must be provided";
   KeyError "word type must be all, user, or corpora";
   KeyError "sort must be alphabetical or count";
   TypeError;
   AttributeError].

(** A descriptor with another method. *)
Definition with_method (method : string) (r : Request) : Request :=
  {| req_method := method;
     req_url := req_url r;
     req_headers := req_headers r;
     req_params := req_params r;
     req_data := req_data r;
     req_files := req_files r;
     req_stream := req_stream r;
     req_accept_json := req_accept_json r |}.

(** Fetching a corpus, and the descriptor of the call. *)
Definition fetch_corpus : operation := GetCorpus (PStr "id") (PStr "corpus1").

Definition fetch_corpus_request : Request :=
  {| req_method := "GET";
     req_url := "/v1/customizations/id/corpora/corpus1";
     req_headers := ∅;
     req_params := ∅;
     req_data := Val PNone;
     req_files := ∅;
     req_stream := false;
     req_accept_json := true |}.

(** A multipart recognition in a session: a metadata text and an open
    file, nothing else supplied; and the descriptor of the call. *)
Definition speech_file : payload := File (mkFile (Some (PStr "speech.wav")) "RIFF").

Definition multipart_recognition : operation :=
  RecognizeSession (PStr "s1") PNone (Val PNone) None
    PNone PNone PNone PNone PNone PNone PNone PNone PNone PNone PNone
    (PStr "{}") speech_file PNone PNone.

Definition multipart_request : Request :=
  {| req_method := "POST";
     req_url := "/v1/sessions/s1/recognize";
     req_headers := {["content-type" := PStr "audio/basic"]};
     req_params := ∅;
     req_data := Val PNone;
     req_files := {["metadata" := (PNone, Val (PStr "{}"), PStr "text/plain");
                    "upload" := (PStr "speech.wav", speech_file,
                                 PStr "application/octet-stream")]};
     req_stream := false;
     req_accept_json := true |}.

(** A recognition in a session whose upload comes with a file name and
    a content type of its own. *)
Definition named_upload_request : Request :=
  {| req_method := "POST";
     req_url := "/v1/sessions/s1/recognize";
     req_headers := {["content-type" := PStr "audio/basic"]};
     req_params := ∅;
     req_data := Val PNone;
     req_files := {["upload" := (PStr "talk.flac", speech_file, PStr "audio/flac")]};
     req_stream := false;
     req_accept_json := true |}.

(** A recognition in a session with audio as the body and no part. *)
Definition plain_recognition_request : Request :=
  {| req_method := "POST";
     req_url := "/v1/sessions/s1/recognize";
     req_headers := {["content-type" := PStr "audio/wav"]};
     req_params := ∅;
     req_data := Bytes "RIFF";
     req_files := ∅;
     req_stream := false;
     req_accept_json := true |}.

(** Adding the word of the spec's example, and the descriptor of the
    call. *)
Definition add_ieee_request : Request :=
  {| req_method := "PUT";
     req_url := "/v1/customizations/id/words/IEEE";
     req_headers := {["content-type" := PStr "application/json"]};
     req_params := ∅;
     req_data := Val (PStr (json_dumps
                              (PDict [("sounds_like", PList [PStr "i triple e"]);
                                      ("display_as", PStr "IEEE")])));
     req_files := ∅;
     req_stream := false;
     req_accept_json := true |}.

(** Listing the words that users added, by count. *)
Definition user_words_request : Request :=
  {| req_method := "GET";
     req_url := "/v1/customizations/id/words";
     req_headers := ∅;
     req_params := {["word_type" := PStr "user"; "sort" := PStr "count"]};
     req_data := Val PNone;
     req_files := ∅;
     req_stream := false;
     req_accept_json := true |}.

(** * Properties *)

(** ** The monad and the URL templates *)

Lemma bind_ret {A B} (a : A) (k : A -> M B) : bind (ret a) k = k a.
Proof. reflexivity. Qed.

Lemma bind_raise {A B} (e : exn) (k : A -> M B) : bind (raise e) k = raise e.
Proof. reflexivity. Qed.

Lemma append_empty_r (s : string) : s +:+ EmptyString = s.
Proof.
  induction s as [|c s IH]; [reflexivity |].
  change (String c (s +:+ EmptyString) = String c s). now rewrite IH.
Qed.

(** A template is expanded by computation, up to the empty tail that
    [format] leaves after the last field. *)
Ltac expand_template last :=
  unfold fmt; rewrite <- (append_empty_r (str last)); reflexivity.

Section Templates.
Variables a b : pyval.

Lemma fmt_model : fmt "/v1/models/{0}" [a] = ret ("/v1/models/" +:+ str a).
Proof. expand_template a. Qed.

Lemma fmt_session : fmt "/v1/sessions/{0}" [a] = ret ("/v1/sessions/" +:+ str a).
Proof. expand_template a. Qed.

Lemma fmt_session_recognize :
  fmt "/v1/sessions/{0}/recognize" [a] = ret ("/v1/sessions/" +:+ str a +:+ "/recognize").
Proof. reflexivity. Qed.

Lemma fmt_train :
  fmt "/v1/customizations/{0}/train" [a]
  = ret ("/v1/customizations/" +:+ str a +:+ "/train").
Proof. reflexivity. Qed.

Lemma fmt_customization :
  fmt "/v1/customizations/{0}" [a] = ret ("/v1/customizations/" +:+ str a).
Proof. expand_template a. Qed.

Lemma fmt_corpora :
  fmt "/v1/customizations/{0}/corpora" [a]
  = ret ("/v1/customizations/" +:+ str a +:+ "/corpora").
Proof. reflexivity. Qed.

Lemma fmt_corpus :
  fmt "/v1/customizations/{0}/corpora/{1}" [a; b]
  = ret ("/v1/customizations/" +:+ str a +:+ "/corpora/" +:+ str b).
Proof. expand_template b. Qed.

Lemma fmt_words :
  fmt "/v1/customizations/{0}/words" [a]
  = ret ("/v1/customizations/" +:+ str a +:+ "/words").
Proof. reflexivity. Qed.

Lemma fmt_word :
  fmt "/v1/customizations/{0}/words/{1}" [a; b]
  = ret ("/v1/customizations/" +:+ str a +:+ "/words/" +:+ str b).
Proof. expand_template b. Qed.
End Templates.

Create Rewrite HintDb shape.

#[local] Hint Rewrite fmt_model fmt_session fmt_session_recognize fmt_train
  fmt_customization fmt_corpora fmt_corpus fmt_words fmt_word
  @bind_ret @bind_raise : shape.

(** What [request] hands over, and what it returns. *)
Lemma request_run method url headers params data files stream accept_json t :
  let r := {| req_method := method;
              req_url := url;
              req_headers := _remove_null_values is_None (default ∅ headers);
              req_params := _remove_null_values is_None (default ∅ params);
              req_data := data;
              req_files := omap id (default ∅ files);
              req_stream := stream;
              req_accept_json := accept_json |} in
  request method url headers params data files stream accept_json t
  = (respond t r, {| respond := respond t; calls := calls t ++ [r] |}).
Proof. reflexivity. Qed.

(** Returning the response of a request as it is changes nothing. *)
Lemma bind_request_ret method url headers params data files stream accept_json t :
  bind (request method url headers params data files stream accept_json)
       (fun response => ret response) t
  = request method url headers params data files stream accept_json t.
Proof. unfold bind, request, ret. now destruct (respond t _). Qed.

(** Discarding the response keeps the descriptor that was handed over. *)
Lemma bind_request_discard method url headers params data files stream accept_json t :
  snd (bind (request method url headers params data files stream accept_json)
            (fun _ => ret PNone) t)
  = snd (request method url headers params data files stream accept_json t).
Proof. unfold bind, request, ret. now destruct (respond t _). Qed.

(** ** Sessions *)

(** C2. [delete_session], [get_session] and [recognize_session] called
    with [session_id] equal to [None] raise [ValueError] at once: no
    descriptor is built, and the transport comes back as it was, with
    no invocation added to the ones it had recorded. *)
Theorem missing_session_id_fails_fast :
  forall (t : Transport) (transfer_encoding : pyval) (audio : payload)
         (content_type : option pyval)
         (sequence_id inactivity_timeout keywords keywords_threshold
          max_alternatives word_alternatives_threshold word_confidence
          timestamps profanity_filter smart_formatting speaker_labels
          metadata : pyval)
         (upload : payload) (upload_content_type upload_filename : pyval),
    let e := ValueError "session_id must be provided" in
    fails_fast (delete_session PNone) t e
    /\ fails_fast (get_session PNone) t e
    /\ fails_fast
         (recognize_session PNone transfer_encoding audio content_type
            sequence_id inactivity_timeout keywords keywords_threshold
            max_alternatives word_alternatives_threshold word_confidence
            timestamps profanity_filter smart_formatting speaker_labels
            metadata upload upload_content_type upload_filename) t e
    /\ invocations (delete_session PNone) t = 0
    /\ invocations (get_session PNone) t = 0
    /\ invocations
         (recognize_session PNone transfer_encoding audio content_type
            sequence_id inactivity_timeout keywords keywords_threshold
            max_alternatives word_alternatives_threshold word_confidence
            timestamps profanity_filter smart_formatting speaker_labels
            metadata upload upload_content_type upload_filename) t = 0.
Proof.
  intros. unfold fails_fast, invocations, e. cbn. repeat split; lia.
Qed.

(** ** Custom words *)

(** C9. Projecting a [CustomWord] to its field mapping and building a
    record from the three mapped values gives back the record, field
    for field. *)
Theorem custom_word_round_trip :
  forall w : CustomWord,
    exists w',
      rebuild (CustomWord.__dict__ w) = Some w'
      /\ CustomWord.word w' = CustomWord.word w
      /\ CustomWord.sounds_like w' = CustomWord.sounds_like w
      /\ CustomWord.display_as w' = CustomWord.display_as w
      /\ w' = w.
Proof.
  intros [w s a]. eexists. split; [reflexivity |]. repeat split.
Qed.

(** C5. [add_custom_word] hands over one PUT request; its URL is the
    template filled with the customization id and the word of the
    record, and its body is the JSON text of a mapping with the keys
    [sounds_like] and [display_as], in this order and no other, bound to
    the fields of the record; [word] is not a key of the body. *)
Theorem add_custom_word_request :
  forall (customization_id : pyval) (custom_word : CustomWord) (t : Transport),
    exists (r : Request) (fragment : list (string * pyval)),
      add_custom_word customization_id custom_word t
      = (respond t r, {| respond := respond t; calls := calls t ++ [r] |})
      /\ req_method r = "PUT"
      /\ req_url r = "/v1/customizations/" +:+ str customization_id
                     +:+ "/words/" +:+ str (CustomWord.word custom_word)
      /\ req_data r = Val (PStr (json_dumps (PDict fragment)))
      /\ keys fragment = ["sounds_like"; "display_as"]
      /\ getitem fragment "sounds_like" = Some (CustomWord.sounds_like custom_word)
      /\ getitem fragment "display_as" = Some (CustomWord.display_as custom_word)
      /\ getitem fragment "word" = None.
Proof.
  intros. unfold add_custom_word. autorewrite with shape.
  rewrite request_run. cbv zeta. do 2 eexists.
  split; [reflexivity |]. cbn [req_method req_url req_data].
  repeat split.
Qed.

(** C6. [add_custom_words] hands over one POST request whose body is the
    JSON text of [{"words": [...]}], the list holding the field mapping
    [word], [sounds_like], [display_as] of every input record, one per
    record and in the order of the input. *)
Theorem add_custom_words_request :
  forall (customization_id : pyval) (custom_words : list CustomWord) (t : Transport),
    exists (r : Request) (projections : list pyval),
      add_custom_words customization_id custom_words t
      = (respond t r, {| respond := respond t; calls := calls t ++ [r] |})
      /\ req_method r = "POST"
      /\ req_url r = "/v1/customizations/" +:+ str customization_id +:+ "/words"
      /\ req_data r = Val (PStr (json_dumps (PDict [("words", PList projections)])))
      /\ length projections = length custom_words
      /\ forall i : nat,
           projections !! i
           = (fun w => PDict [("word", CustomWord.word w);
                              ("sounds_like", CustomWord.sounds_like w);
                              ("display_as", CustomWord.display_as w)])
               <$> custom_words !! i.
Proof.
  intros. unfold add_custom_words. autorewrite with shape.
  rewrite request_run. cbv zeta. do 2 eexists.
  split; [reflexivity |]. cbn [req_method req_url req_data].
  repeat split.
  - now rewrite length_map.
  - intros i. apply list_lookup_fmap.
Qed.

(** ** Listing custom words *)

Section ListingWords.
Variables customization_id word_type sort : pyval.
Variable t : Transport.

(** A falsy filter is not looked at. *)
Lemma list_custom_words_falsy_word_type :
  truthy word_type = false ->
  list_custom_words customization_id word_type sort t
  = list_custom_words customization_id PNone sort t.
Proof. intros H. unfold list_custom_words. now rewrite H. Qed.

Lemma list_custom_words_falsy_sort :
  truthy sort = false ->
  list_custom_words customization_id word_type sort t
  = list_custom_words customization_id word_type PNone t.
Proof. intros H. unfold list_custom_words. now rewrite H. Qed.

(** A truthy word type outside its enumeration stops the call. *)
Lemma list_custom_words_bad_word_type :
  truthy word_type = true ->
  in_strs word_type ["all"; "user"; "corpora"] = false ->
  list_custom_words customization_id word_type sort t
  = (Raised (KeyError "word type must be all, user, or corpora"), t).
Proof. intros H1 H2. unfold list_custom_words. now rewrite H1, H2. Qed.

(** So does a truthy sort outside its enumeration, when the word type
    has passed. *)
Lemma list_custom_words_bad_sort :
  truthy word_type = false \/ in_strs word_type ["all"; "user"; "corpora"] = true ->
  truthy sort = true ->
  in_strs sort ["alphabetical"; "count"] = false ->
  list_custom_words customization_id word_type sort t
  = (Raised (KeyError "sort must be alphabetical or count"), t).
Proof.
  intros H1 H2 H3. unfold list_custom_words. rewrite H2, H3.
  destruct (truthy word_type); [destruct H1 as [H1|H1]; [discriminate |]; rewrite H1 |];
    reflexivity.
Qed.

(** Otherwise the request is built, with the truthy filters as its
    query parameters. *)
Lemma list_custom_words_built :
  truthy word_type = false \/ in_strs word_type ["all"; "user"; "corpora"] = true ->
  truthy sort = false \/ in_strs sort ["alphabetical"; "count"] = true ->
  let qs1 : gmap string pyval :=
    if truthy word_type then <["word_type" := word_type]> ∅ else ∅ in
  let qs2 := if truthy sort then <["sort" := sort]> qs1 else qs1 in
  list_custom_words customization_id word_type sort t
  = request "GET" ("/v1/customizations/" +:+ str customization_id +:+ "/words")
            None (Some qs2) (Val PNone) None false true t.
Proof.
  intros H1 H2. unfold list_custom_words.
  destruct (truthy word_type); [destruct H1 as [H1|H1]; [discriminate |]; rewrite H1 |];
    (destruct (truthy sort); [destruct H2 as [H2|H2]; [discriminate |]; rewrite H2 |]);
    autorewrite with shape; reflexivity.
Qed.
End ListingWords.

Lemma handed_request method url headers params data files stream accept_json t r :
  handed (request method url headers params data files stream accept_json) t r ->
  r = {| req_method := method;
         req_url := url;
         req_headers := _remove_null_values is_None (default ∅ headers);
         req_params := _remove_null_values is_None (default ∅ params);
         req_data := data;
         req_files := omap id (default ∅ files);
         req_stream := stream;
         req_accept_json := accept_json |}.
Proof.
  unfold handed. rewrite request_run. cbn [snd]. intros H.
  injection H as H. apply app_inv_head in H. now injection H.
Qed.

Lemma not_handed {A} (m : M A) t res r : m t = (res, t) -> ~ handed m t r.
Proof.
  unfold handed. intros -> H. cbn [snd] in H.
  apply (f_equal (fun x => length (calls x))) in H. cbn in H.
  rewrite length_app in H. cbn in H. lia.
Qed.

Lemma truthy_not_None (v : pyval) : truthy v = true -> is_None v = false.
Proof. now destruct v. Qed.

Lemma stripped_lookup {V} (is_null : V -> bool) (d : gmap string V) (k : string) (v : V) :
  _remove_null_values is_null d !! k = Some v <-> d !! k = Some v /\ is_null v = false.
Proof. unfold _remove_null_values. now rewrite map_lookup_filter_Some. Qed.

(** C4, as the spec words it, fails on the code: the empty string is a
    value outside both enumerations, yet the call with it as the word
    type does not fail and invokes the transport; and with the word type
    [all] the request is not built when the sort is refused. *)
Lemma list_custom_words_empty_word_type_accepted :
  is_None (PStr EmptyString) = false
  /\ in_strs (PStr EmptyString) ["all"; "user"; "corpora"] = false
  /\ ~ (exists e, fails_fast (list_custom_words (PStr "id") (PStr EmptyString) PNone) idle e)
  /\ invocations (list_custom_words (PStr "id") (PStr EmptyString) PNone) idle = 1
  /\ list_custom_words (PStr "id") (PStr "all") (PStr "newest") idle
     = (Raised (KeyError "sort must be alphabetical or count"), idle).
Proof.
  repeat split. intros [e H]. unfold fails_fast in H. discriminate H.
Qed.

(** C4, amended.  A word type or a sort that is truthy and outside its
    enumeration makes [list_custom_words] fail with [KeyError] before
    any request is built, the transport not being invoked; with the word
    type [all], and a sort that is falsy or in its enumeration, the
    request is built with the query parameter [word_type=all]. *)
Theorem list_custom_words_enumerations :
  forall (customization_id word_type sort : pyval) (t : Transport),
    (truthy word_type = true /\ in_strs word_type ["all"; "user"; "corpora"] = false
     \/ truthy sort = true /\ in_strs sort ["alphabetical"; "count"] = false ->
     exists msg,
       fails_fast (list_custom_words customization_id word_type sort) t (KeyError msg)
       /\ invocations (list_custom_words customization_id word_type sort) t = 0)
    /\ (word_type = PStr "all" ->
        truthy sort = false \/ in_strs sort ["alphabetical"; "count"] = true ->
        exists r,
          list_custom_words customization_id word_type sort t
          = (respond t r, {| respond := respond t; calls := calls t ++ [r] |})
          /\ req_method r = "GET"
          /\ req_url r = "/v1/customizations/" +:+ str customization_id +:+ "/words"
          /\ req_params r !! "word_type" = Some (PStr "all")).
Proof.
  intros cid wt st t. split.
  - intros H.
    assert (exists msg, list_custom_words cid wt st t = (Raised (KeyError msg), t)) as [msg E].
    { destruct (truthy wt) eqn:Tw; [destruct (in_strs wt ["all"; "user"; "corpora"]) eqn:Iw |].
      - destruct H as [[_ H]|[H1 H2]]; [discriminate |].
        eexists. apply list_custom_words_bad_sort; auto.
      - eexists. now apply list_custom_words_bad_word_type.
      - destruct H as [[H _]|[H1 H2]]; [discriminate |].
        eexists. apply list_custom_words_bad_sort; auto. }
    exists msg. unfold fails_fast, invocations. rewrite E. split; [reflexivity | cbn; lia].
  - intros -> Hs. rewrite list_custom_words_built by (auto; right; reflexivity).
    rewrite request_run. cbv zeta. eexists. split; [reflexivity |].
    cbn [req_method req_url req_params]. repeat split.
    apply stripped_lookup. split; [| reflexivity].
    cbn [default truthy]. unfold id. destruct (truthy st) eqn:Ts; cbv iota.
    + rewrite lookup_insert_ne by discriminate. apply lookup_insert_eq.
    + apply lookup_insert_eq.
Qed.

Lemma list_custom_words_enumerations_witness :
  (exists msg,
      fails_fast (list_custom_words (PStr "id") (PStr "invalid") PNone) idle (KeyError msg)
      /\ invocations (list_custom_words (PStr "id") (PStr "invalid") PNone) idle = 0)
  /\ (exists r,
        list_custom_words (PStr "id") (PStr "all") (PStr "count") idle
        = (respond idle r, {| respond := respond idle; calls := calls idle ++ [r] |})
        /\ req_method r = "GET"
        /\ req_url r = "/v1/customizations/" +:+ str (PStr "id") +:+ "/words"
        /\ req_params r !! "word_type" = Some (PStr "all")).
Proof.
  split.
  - apply (proj1 (list_custom_words_enumerations (PStr "id") (PStr "invalid") PNone idle)).
    left. split; reflexivity.
  - apply (proj2 (list_custom_words_enumerations (PStr "id") (PStr "all") (PStr "count") idle)).
    + reflexivity.
    + right. reflexivity.
Defined.

(** The query parameters of the request that [list_custom_words] hands
    over, when it hands one over. *)
Lemma list_custom_words_params customization_id word_type sort t r :
  handed (list_custom_words customization_id word_type sort) t r ->
  forall k v,
    req_params r !! k = Some v ->
    k = "word_type" /\ v = word_type /\ truthy word_type = true
    \/ k = "sort" /\ v = sort /\ truthy sort = true.
Proof.
  intros Hr k v Hk.
  destruct (truthy word_type) eqn:Tw;
    [destruct (in_strs word_type ["all"; "user"; "corpora"]) eqn:Iw;
     [| exfalso; eapply not_handed; [| exact Hr];
        now apply list_custom_words_bad_word_type] |];
    (destruct (truthy sort) eqn:Ts;
     [destruct (in_strs sort ["alphabetical"; "count"]) eqn:Is;
      [| exfalso; eapply not_handed; [| exact Hr];
         apply list_custom_words_bad_sort; auto] |]);
    unfold handed in Hr; rewrite list_custom_words_built in Hr by auto;
    apply handed_request in Hr; subst r; cbn [req_params default] in Hk; unfold id in Hk;
    rewrite Tw, Ts in Hk; apply stripped_lookup in Hk as [Hk _];
    repeat (apply lookup_insert_Some in Hk as [[<- <-]|[_ Hk]]; [tauto |]);
    now rewrite lookup_empty in Hk.
Qed.

(** C10, as it is worded, fails on the code when only one of the two
    filters is falsy: with the empty string as the word type, a value
    outside the enumeration, and a truthy sort that is refused, the call
    raises and no request is built. *)
Lemma list_custom_words_falsy_filter_still_raises :
  truthy (PStr EmptyString) = false
  /\ in_strs (PStr EmptyString) ["all"; "user"; "corpora"] = false
  /\ list_custom_words (PStr "id") (PStr EmptyString) (PStr "newest") idle
     = (Raised (KeyError "sort must be alphabetical or count"), idle)
  /\ invocations (list_custom_words (PStr "id") (PStr EmptyString) (PStr "newest")) idle = 0.
Proof. repeat split. Qed.

(** C10, amended.  A falsy word type or sort, such as the empty string,
    is treated by [list_custom_words] as an absent one: the call goes as
    it would with [None] in its place and no query parameter is sent
    for it; the call does not raise and the request is built when the
    other filter is falsy too or is in its enumeration, with that other
    filter as the only query parameter when it is truthy, and without
    query parameters when both are falsy.  Only truthy values are
    checked against the enumerations. *)
Theorem list_custom_words_falsy_filters :
  forall (customization_id word_type sort : pyval) (t : Transport),
    (truthy word_type = false ->
     list_custom_words customization_id word_type sort t
     = list_custom_words customization_id PNone sort t
     /\ forall r, handed (list_custom_words customization_id word_type sort) t r ->
                  req_params r !! "word_type" = None)
    /\ (truthy sort = false ->
        list_custom_words customization_id word_type sort t
        = list_custom_words customization_id word_type PNone t
        /\ forall r, handed (list_custom_words customization_id word_type sort) t r ->
                     req_params r !! "sort" = None)
    /\ (truthy word_type = false ->
        truthy sort = false \/ in_strs sort ["alphabetical"; "count"] = true ->
        exists r,
          list_custom_words customization_id word_type sort t
          = (respond t r, {| respond := respond t; calls := calls t ++ [r] |})
          /\ req_method r = "GET"
          /\ req_url r = "/v1/customizations/" +:+ str customization_id +:+ "/words"
          /\ req_params r !! "word_type" = None
          /\ req_params r !! "sort" = (if truthy sort then Some sort else None))
    /\ (truthy sort = false ->
        truthy word_type = false \/ in_strs word_type ["all"; "user"; "corpora"] = true ->
        exists r,
          list_custom_words customization_id word_type sort t
          = (respond t r, {| respond := respond t; calls := calls t ++ [r] |})
          /\ req_method r = "GET"
          /\ req_url r = "/v1/customizations/" +:+ str customization_id +:+ "/words"
          /\ req_params r !! "sort" = None
          /\ req_params r !! "word_type"
             = (if truthy word_type then Some word_type else None))
    /\ (truthy word_type = false -> truthy sort = false ->
        exists r,
          list_custom_words customization_id word_type sort t
          = (respond t r, {| respond := respond t; calls := calls t ++ [r] |})
          /\ req_method r = "GET"
          /\ req_url r = "/v1/customizations/" +:+ str customization_id +:+ "/words"
          /\ req_params r = ∅).
Proof.
  intros cid wt st t. split; [| split; [| split; [| split]]].
  - intros Tw. split; [now apply list_custom_words_falsy_word_type |].
    intros r Hr. apply eq_None_not_Some. intros [v Hv].
    destruct (list_custom_words_params _ _ _ _ _ Hr _ _ Hv) as [(_ & _ & T)|(E & _)];
      congruence.
  - intros Ts. split; [now apply list_custom_words_falsy_sort |].
    intros r Hr. apply eq_None_not_Some. intros [v Hv].
    destruct (list_custom_words_params _ _ _ _ _ Hr _ _ Hv) as [(E & _)|(_ & _ & T)];
      congruence.
  - intros Tw Hs. rewrite list_custom_words_built by auto.
    rewrite request_run. cbv zeta. eexists. split; [reflexivity |].
    cbn [req_method req_url req_params default]. unfold id. rewrite Tw.
    split; [reflexivity |]. split; [reflexivity |].
    destruct (truthy st) eqn:Ts; cbv iota; split.
    + apply eq_None_not_Some. intros [v Hv]. apply stripped_lookup in Hv as [Hv _].
      rewrite lookup_insert_ne in Hv by discriminate. now rewrite lookup_empty in Hv.
    + apply stripped_lookup. split; [apply lookup_insert_eq | now apply truthy_not_None].
    + reflexivity.
    + reflexivity.
  - intros Ts Hw. rewrite list_custom_words_built by auto.
    rewrite request_run. cbv zeta. eexists. split; [reflexivity |].
    cbn [req_method req_url req_params default]. unfold id. rewrite Ts.
    split; [reflexivity |]. split; [reflexivity |].
    destruct (truthy wt) eqn:Tw; cbv iota; split.
    + apply eq_None_not_Some. intros [v Hv]. apply stripped_lookup in Hv as [Hv _].
      rewrite lookup_insert_ne in Hv by discriminate. now rewrite lookup_empty in Hv.
    + apply stripped_lookup. split; [apply lookup_insert_eq | now apply truthy_not_None].
    + reflexivity.
    + reflexivity.
  - intros Tw Ts. rewrite list_custom_words_built by auto.
    rewrite request_run. cbv zeta. eexists. split; [reflexivity |].
    cbn [req_method req_url req_params default]. unfold id. rewrite Tw, Ts.
    repeat split.
Qed.

Lemma list_custom_words_falsy_filters_witness :
  list_custom_words (PStr "id") (PStr EmptyString) (PInt 0) idle
  = list_custom_words (PStr "id") PNone PNone idle
  /\ (exists r,
        list_custom_words (PStr "id") (PStr EmptyString) (PInt 0) idle
        = (respond idle r, {| respond := respond idle; calls := calls idle ++ [r] |})
        /\ req_params r !! "word_type" = None
        /\ req_params r !! "sort" = None
        /\ req_params r = ∅)
  /\ (exists r,
        list_custom_words (PStr "id") (PStr EmptyString) (PStr "count") idle
        = (respond idle r, {| respond := respond idle; calls := calls idle ++ [r] |})
        /\ req_params r !! "word_type" = None
        /\ req_params r !! "sort" = Some (PStr "count"))
  /\ (exists r,
        list_custom_words (PStr "id") (PStr "user") (PList []) idle
        = (respond idle r, {| respond := respond idle; calls := calls idle ++ [r] |})
        /\ req_params r !! "sort" = None
        /\ req_params r !! "word_type" = Some (PStr "user")).
Proof.
  pose proof (list_custom_words_falsy_filters (PStr "id") (PStr EmptyString) (PInt 0) idle)
    as (Hw & Hs & _ & _ & Hb).
  destruct (Hw eq_refl) as [E1 N1]. destruct (Hs eq_refl) as [E2 N2].
  destruct (Hb eq_refl eq_refl) as (r & E & _ & _ & P).
  split; [reflexivity |]. split.
  - exists r. split; [exact E |].
    assert (handed (list_custom_words (PStr "id") (PStr EmptyString) (PInt 0)) idle r) as Hr
      by (unfold handed; now rewrite E).
    split; [now apply N1 |]. split; [now apply N2 | exact P].
  - split.
    + destruct (list_custom_words_falsy_filters (PStr "id") (PStr EmptyString) (PStr "count")
                  idle) as (_ & _ & H3 & _).
      destruct (H3 eq_refl (or_intror eq_refl)) as (r3 & E3 & _ & _ & W3 & S3).
      exists r3. split; [exact E3 |]. split; [exact W3 | exact S3].
    + destruct (list_custom_words_falsy_filters (PStr "id") (PStr "user") (PList []) idle)
        as (_ & _ & _ & H4 & _).
      destruct (H4 eq_refl (or_intror eq_refl)) as (r4 & E4 & _ & _ & S4 & W4).
      exists r4. split; [exact E4 |]. split; [exact S4 | exact W4].
Defined.

(** ** Recognition within a session *)

Lemma bind_lift_returned {A B} (a : A) (k : A -> M B) : bind (lift (Returned a)) k = k a.
Proof. reflexivity. Qed.

Section SessionRecognition.
Variables (session : string) (transfer_encoding : pyval) (audio : payload).
Variable content_type : option pyval.
Variables sequence_id inactivity_timeout keywords keywords_threshold
  max_alternatives word_alternatives_threshold word_confidence timestamps
  profanity_filter smart_formatting speaker_labels metadata : pyval.
Variable upload : payload.
Variables upload_content_type upload_filename : pyval.
Variable t : Transport.

(** With a string as the session id the call is one request. *)
Lemma recognize_session_run :
  recognize_session (PStr session) transfer_encoding audio content_type
    sequence_id inactivity_timeout keywords keywords_threshold
    max_alternatives word_alternatives_threshold word_confidence
    timestamps profanity_filter smart_formatting speaker_labels
    metadata upload upload_content_type upload_filename t
  = request "POST" ("/v1/sessions/" +:+ quote session +:+ "/recognize")
      (Some (dict [("Transfer-Encoding", transfer_encoding);
                   ("content-type", default (PStr "audio/basic") content_type)]))
      (Some (dict [("sequence_id", sequence_id);
                   ("inactivity_timeout", inactivity_timeout);
                   ("keywords", _convert_list keywords);
                   ("keywords_threshold", keywords_threshold);
                   ("max_alternatives", max_alternatives);
                   ("word_alternatives_threshold", word_alternatives_threshold);
                   ("word_confidence", word_confidence);
                   ("timestamps", timestamps);
                   ("profanity_filter", profanity_filter);
                   ("smart_formatting", smart_formatting);
                   ("speaker_labels", speaker_labels)]))
      audio
      (Some (dict [("metadata",
                    if truthy metadata
                    then Some (PNone, Val metadata, PStr "text/plain") else None);
                   ("upload",
                    if payload_truthy upload
                    then Some (match name_attr upload with
                               | Some name => if negb (truthy upload_filename)
                                              then name else upload_filename
                               | None => upload_filename
                               end,
                               upload,
                               if truthy upload_content_type then upload_content_type
                               else PStr "application/octet-stream")
                    else None)]))
      false true t.
Proof.
  unfold recognize_session. cbn [is_None _encode_path_vars].
  rewrite bind_lift_returned, fmt_session_recognize, bind_ret.
  apply bind_request_ret.
Qed.
End SessionRecognition.

(** The parts of a multipart body, once the absent ones are stripped. *)
Lemma parts_lookup (metadata_tuple upload_tuple : option part) :
  omap id (dict [("metadata", metadata_tuple); ("upload", upload_tuple)]) !! "metadata"
  = metadata_tuple
  /\ omap id (dict [("metadata", metadata_tuple); ("upload", upload_tuple)]) !! "upload"
     = upload_tuple.
Proof.
  rewrite !lookup_omap. unfold dict. cbn [list_to_map foldr].
  rewrite lookup_insert_eq, lookup_insert_ne by discriminate.
  rewrite lookup_insert_eq. now destruct metadata_tuple, upload_tuple.
Qed.

(** C8. In a multipart [recognize_session] call, one with a metadata
    text and an upload payload, the metadata goes as a [text/plain] part
    without a file name; the upload part takes the payload's [name] as
    its file name when no file name is given and the payload has one;
    and its content type is [application/octet-stream] when none is
    given. *)
Theorem recognize_session_multipart :
  forall (session : string) (transfer_encoding : pyval) (audio : payload)
         (content_type : option pyval)
         (sequence_id inactivity_timeout keywords keywords_threshold
          max_alternatives word_alternatives_threshold word_confidence
          timestamps profanity_filter smart_formatting speaker_labels
          metadata : pyval)
         (upload : payload) (upload_content_type upload_filename : pyval)
         (t : Transport),
    truthy metadata = true ->
    payload_truthy upload = true ->
    exists r,
      recognize_session (PStr session) transfer_encoding audio content_type
        sequence_id inactivity_timeout keywords keywords_threshold
        max_alternatives word_alternatives_threshold word_confidence
        timestamps profanity_filter smart_formatting speaker_labels
        metadata upload upload_content_type upload_filename t
      = (respond t r, {| respond := respond t; calls := calls t ++ [r] |})
      /\ req_method r = "POST"
      /\ req_files r !! "metadata" = Some (PNone, Val metadata, PStr "text/plain")
      /\ (forall name,
            truthy upload_filename = false ->
            name_attr upload = Some name ->
            exists mime_type, req_files r !! "upload" = Some (name, upload, mime_type))
      /\ (truthy upload_content_type = false ->
          exists filename,
            req_files r !! "upload"
            = Some (filename, upload, PStr "application/octet-stream")).
Proof.
  intros * Hm Hu. rewrite recognize_session_run, request_run. cbv zeta.
  eexists. split; [reflexivity |].
  cbn [req_method req_files]. rewrite Hm, Hu.
  match goal with |- context [dict [("metadata", ?m); ("upload", ?u)]] =>
    destruct (parts_lookup m u) as [P1 P2] end.
  split; [reflexivity |]. split; [exact P1 |]. split.
  - intros name Hf Hn. eexists. etransitivity; [exact P2 |].
    now rewrite Hf, Hn.
  - intros Hc. eexists. etransitivity; [exact P2 |]. now rewrite Hc.
Qed.

Lemma recognize_session_multipart_witness :
  exists r,
    recognize_session (PStr "s1") PNone (Val PNone) None
      PNone PNone PNone PNone PNone PNone PNone PNone PNone PNone PNone
      (PStr "{}") (File (mkFile (Some (PStr "speech.wav")) "RIFF")) PNone PNone idle
    = (respond idle r, {| respond := respond idle; calls := calls idle ++ [r] |})
    /\ req_files r !! "metadata" = Some (PNone, Val (PStr "{}"), PStr "text/plain")
    /\ req_files r !! "upload"
       = Some (PStr "speech.wav", File (mkFile (Some (PStr "speech.wav")) "RIFF"),
               PStr "application/octet-stream").
Proof.
  destruct (recognize_session_multipart "s1" PNone (Val PNone) None
              PNone PNone PNone PNone PNone PNone PNone PNone PNone PNone PNone
              (PStr "{}") (File (mkFile (Some (PStr "speech.wav")) "RIFF")) PNone PNone idle
              eq_refl eq_refl) as (r & E & _ & Hm & Hn & Hc).
  exists r. split; [exact E |]. split; [exact Hm |].
  destruct (Hn (PStr "speech.wav") eq_refl eq_refl) as [mime Hn'].
  destruct (Hc eq_refl) as [filename Hc'].
  rewrite Hn' in Hc'. injection Hc' as <- ->. exact Hn'.
Defined.

(** ** The query parameters of every operation *)

Lemma convert_list_None (v : pyval) : is_None (_convert_list v) = is_None v.
Proof. now destruct v. Qed.

Lemma is_None_true (v : pyval) : is_None v = true -> v = PNone.
Proof. now destruct v. Qed.

Lemma opt_elem (name : string) (arg : pyval) : is_None arg = false -> name ∈ opt name arg.
Proof. intros H. unfold opt. rewrite H. apply list_elem_of_here. Qed.

Lemma bind_lift_raised {A B} (e : exn) (k : A -> M B) : bind (lift (Raised e)) k = raise e.
Proof. reflexivity. Qed.

#[local] Hint Rewrite @bind_lift_returned @bind_lift_raised : shape.

Lemma handed_returning method url headers params data files stream accept_json t r :
  handed (bind (request method url headers params data files stream accept_json)
               (fun response => ret response)) t r ->
  handed (request method url headers params data files stream accept_json) t r.
Proof. unfold handed. now rewrite bind_request_ret. Qed.

Lemma handed_discarding method url headers params data files stream accept_json t r :
  handed (bind (request method url headers params data files stream accept_json)
               (fun _ => ret PNone)) t r ->
  handed (request method url headers params data files stream accept_json) t r.
Proof. unfold handed. now rewrite bind_request_discard. Qed.

Lemma not_handed_raise {A} (e : exn) t r : ~ handed (@raise A e) t r.
Proof. now apply (not_handed _ _ (Raised e)). Qed.

(** Brings a call that has handed [r] over to the descriptor it built,
    or closes the goal when the call raised before any request. *)
Ltac settle_call H :=
  cbn [is_None is_str word_of _encode_path_vars] in H;
  autorewrite with shape in H;
  first [ apply handed_request in H
        | apply handed_returning, handed_request in H
        | apply handed_discarding, handed_request in H
        | exfalso; exact (not_handed_raise _ _ _ H) ].

(** A key of a request without query parameters: there is none. *)
Ltac no_params H := cbn [req_params] in H; apply stripped_lookup in H as [H _]; discriminate H.

(** A key of a stripped dict literal is one of its items, with a value
    that is not [None]. *)
Ltac by_items Hk Hv :=
  cbn [req_params] in Hk; apply stripped_lookup in Hk as [Hk Hv];
  split; [exact Hv |]; left;
  apply elem_of_list_to_map_2 in Hk;
  repeat (apply elem_of_cons in Hk as [Hk|Hk];
          [injection Hk as -> ->; rewrite ?convert_list_None in Hv;
           cbn [supplied]; rewrite ?elem_of_app; auto 20 using opt_elem |]);
  now apply elem_of_nil in Hk.

Lemma query_parameters_supplied (op : operation) (t : Transport) (r : Request) :
  handed (run op) t r ->
  forall k v,
    req_params r !! k = Some v ->
    is_None v = false
    /\ (k ∈ supplied op
        \/ k = "allow_overwrite" /\ v = PBool false
           /\ exists c n f, op = AddCorpus c n f PNone).
Proof.
  intros Hr k v Hk. destruct op; cbn [run] in Hr.
  - unfold recognize in Hr. settle_call Hr. subst r. by_items Hk Hv.
  - unfold models in Hr. settle_call Hr. subst r. no_params Hk.
  - unfold get_model in Hr. settle_call Hr. subst r. no_params Hk.
  - unfold create_session in Hr. settle_call Hr. subst r. by_items Hk Hv.
  - unfold delete_session in Hr. destruct session_id; settle_call Hr; subst r; no_params Hk.
  - unfold get_session in Hr. destruct session_id; settle_call Hr; subst r; no_params Hk.
  - unfold recognize_session in Hr. destruct session_id; settle_call Hr.
    subst r. by_items Hk Hv.
  - unfold create_custom_model in Hr. settle_call Hr. subst r. no_params Hk.
  - unfold train_custom_model in Hr. settle_call Hr. subst r. by_items Hk Hv.
  - unfold list_custom_models in Hr. settle_call Hr. subst r. no_params Hk.
  - unfold get_custom_model in Hr. settle_call Hr. subst r. no_params Hk.
  - unfold delete_custom_model in Hr. settle_call Hr. subst r. no_params Hk.
  - unfold list_corpora in Hr. settle_call Hr. subst r. no_params Hk.
  - unfold add_corpus in Hr. settle_call Hr. subst r.
    cbn [req_params] in Hk. apply stripped_lookup in Hk as [Hk Hv].
    split; [exact Hv |].
    apply elem_of_list_to_map_2 in Hk. apply list_elem_of_singleton in Hk.
    injection Hk as -> ->. cbn [supplied].
    destruct (is_None allow_overwrite) eqn:E.
    + right. apply is_None_true in E. subst. eauto 10.
    + left. now apply opt_elem.
  - unfold get_corpus in Hr. settle_call Hr. subst r. no_params Hk.
  - unfold delete_corpus in Hr. settle_call Hr. subst r. no_params Hk.
  - unfold add_custom_words in Hr. settle_call Hr. subst r. no_params Hk.
  - unfold add_custom_word in Hr. settle_call Hr. subst r. no_params Hk.
  - destruct (list_custom_words_params _ _ _ _ _ Hr _ _ Hk) as [(-> & -> & T)|(-> & -> & T)];
      (split; [now apply truthy_not_None |]); left; cbn [supplied];
      rewrite elem_of_app; auto using opt_elem, truthy_not_None.
  - unfold get_custom_word in Hr. destruct custom_word as [w|w]; [destruct w |];
      settle_call Hr; subst r; no_params Hk.
  - unfold delete_custom_word in Hr. destruct custom_word as [w|w]; [destruct w |];
      settle_call Hr; subst r; no_params Hk.
Qed.

(** C1, as the spec words it, fails on the code in the JSON bodies and
    for [allow_overwrite]: a [CustomWord] whose [sounds_like] and
    [display_as] are [None] is sent by [add_custom_word] with both keys
    bound to [null], and [add_corpus] called without [allow_overwrite]
    sends that key all the same. *)
Lemma absent_fields_sent_as_null :
  CustomWord.sounds_like bare_word = PNone
  /\ CustomWord.display_as bare_word = PNone
  /\ map req_data (calls (snd (add_custom_word (PStr "id") bare_word idle)))
     = [Val (PStr ("{" +:+ quoted "sounds_like" +:+ ": null, "
                   +:+ quoted "display_as" +:+ ": null}"))]
  /\ supplied (AddCorpus (PStr "id") (PStr "corpus1") (Bytes "text") PNone) = []
  /\ map (fun r => req_params r !! "allow_overwrite")
         (calls (snd (add_corpus (PStr "id") (PStr "corpus1") (Bytes "text") PNone idle)))
     = [Some (PBool false)].
Proof. repeat split. Qed.

(** C1, amended.  Whatever the operation, a query parameter is sent
    with a value other than [None] only, and under the name of a
    parameter that the caller supplied with a value other than [None];
    [allow_overwrite] of [add_corpus] apart, which is sent when it is
    absent too.  A JSON body is not stripped: the body of
    [add_custom_word] always has its two keys, a field that is [None]
    being written [null]. *)
Theorem absent_query_parameters_omitted :
  forall (op : operation) (t : Transport) (r : Request),
    handed (run op) t r ->
    (forall k v,
        req_params r !! k = Some v ->
        v <> PNone
        /\ (k ∈ supplied op
            \/ k = "allow_overwrite" /\ exists c n f, op = AddCorpus c n f PNone))
    /\ (forall customization_id custom_word,
          op = AddCustomWord customization_id custom_word ->
          req_data r
          = Val (PStr (json_dumps
                         (PDict [("sounds_like", CustomWord.sounds_like custom_word);
                                 ("display_as", CustomWord.display_as custom_word)])))).
Proof.
  intros op t r Hr. split.
  - intros k v Hk.
    destruct (query_parameters_supplied op t r Hr k v Hk) as [Hv Hs]. split.
    + intros ->. discriminate Hv.
    + destruct Hs as [Hs|(-> & _ & Hs)]; [left | right]; auto.
  - intros cid w ->. cbn [run] in Hr. unfold add_custom_word in Hr.
    settle_call Hr. now subst r.
Qed.

Lemma absent_query_parameters_omitted_witness :
  handed (run recognize_with_model) idle recognize_with_model_request
  /\ PStr "en-US_NarrowbandModel" <> PNone
  /\ ("model" ∈ supplied recognize_with_model
      \/ "model" = "allow_overwrite"
         /\ exists c n f, recognize_with_model = AddCorpus c n f PNone).
Proof.
  assert (handed (run recognize_with_model) idle recognize_with_model_request) as H
    by reflexivity.
  split; [exact H |].
  apply (proj1 (absent_query_parameters_omitted _ _ _ H) "model").
  reflexivity.
Defined.

(** ** Adding a corpus *)

(** C7, as the spec words it, fails on the code in its last part:
    [allow_overwrite] is not the only parameter that gets a default.
    [create_custom_model] called with a name alone sends a description
    and a base model name, [recognize_session] called without a content
    type sends [audio/basic], and its upload part gets
    [application/octet-stream] when no upload content type is given. *)
Lemma other_parameters_get_defaults :
  map req_data (calls (snd (create_custom_model (PStr "m1") None None idle)))
  = [Val (PStr ("{" +:+ quoted "name" +:+ ": " +:+ quoted "m1" +:+ ", "
                +:+ quoted "description" +:+ ": " +:+ quoted EmptyString +:+ ", "
                +:+ quoted "base_model_name" +:+ ": "
                +:+ quoted "en-US_BroadbandModel" +:+ "}"))]
  /\ map (fun r => (req_headers r !! "content-type", req_files r !! "upload"))
         (calls (snd (recognize_session (PStr "s1") PNone (Val PNone) None
                        PNone PNone PNone PNone PNone PNone PNone PNone PNone PNone PNone
                        (PStr "{}") (Bytes "RIFF") PNone PNone idle)))
     = [(Some (PStr "audio/basic"),
         Some (PNone, Bytes "RIFF", PStr "application/octet-stream"))].
Proof. split; reflexivity. Qed.

(** C7, amended.  [add_corpus] called without [allow_overwrite] sends
    the query parameter [allow_overwrite] bound to [False], the header
    [Content-Type: application/octet-stream] and the file data as the
    body; and [allow_overwrite] is the only query parameter of any
    operation that is sent when the caller has not supplied it. *)
Theorem add_corpus_default_overwrite :
  forall (customization_id corpus_name : pyval) (file_data : payload) (t : Transport),
    (exists r,
        add_corpus customization_id corpus_name file_data PNone t
        = (respond t r, {| respond := respond t; calls := calls t ++ [r] |})
        /\ req_method r = "POST"
        /\ req_params r = {["allow_overwrite" := PBool false]}
        /\ req_headers r = {["Content-Type" := PStr "application/octet-stream"]}
        /\ req_data r = file_data)
    /\ (forall op t' r' k v,
          handed (run op) t' r' ->
          req_params r' !! k = Some v ->
          k ∉ supplied op ->
          k = "allow_overwrite" /\ v = PBool false
          /\ exists c n f, op = AddCorpus c n f PNone).
Proof.
  intros cid name file_data t. split.
  - unfold add_corpus. autorewrite with shape. rewrite request_run. cbv zeta.
    eexists. split; [reflexivity |]. repeat split.
  - intros op t' r' k v Hr Hk Hs.
    destruct (query_parameters_supplied op t' r' Hr k v Hk) as [_ [H|H]];
      [contradiction | exact H].
Qed.

Lemma add_corpus_default_overwrite_witness :
  let op := AddCorpus (PStr "id") (PStr "corpus1") (Bytes "text") PNone in
  let r := {| req_method := "POST";
              req_url := "/v1/customizations/id/corpora/corpus1";
              req_headers := {["Content-Type" := PStr "application/octet-stream"]};
              req_params := {["allow_overwrite" := PBool false]};
              req_data := Bytes "text";
              req_files := ∅;
              req_stream := false;
              req_accept_json := true |} in
  handed (run op) idle r
  /\ ("allow_overwrite" ∉ supplied op)
  /\ "allow_overwrite" = "allow_overwrite" /\ PBool false = PBool false
  /\ exists c n f, op = AddCorpus c n f PNone.
Proof.
  intros op r.
  assert (handed (run op) idle r) as H by reflexivity.
  assert ("allow_overwrite" ∉ supplied op) as N by apply not_elem_of_nil.
  split; [exact H |]. split; [exact N |].
  apply (proj2 (add_corpus_default_overwrite (PStr "id") (PStr "corpus1") (Bytes "text") idle)
           op idle r "allow_overwrite" (PBool false) H eq_refl N).
Defined.

(** ** Path variables *)

(** The session operations encode the session id. *)
Lemma delete_session_url (session : string) (t : Transport) (r : Request) :
  handed (delete_session (PStr session)) t r ->
  req_url r = "/v1/sessions/" +:+ quote session.
Proof.
  intros Hr. unfold delete_session in Hr. settle_call Hr. now subst r.
Qed.

(** C3 at a corpus name with a slash: [add_corpus] puts the name into
    the URL as it is, where its percent-encoding is [a%2Fb]; the
    session operations, next to it, encode their path variable. *)
Theorem add_corpus_path_not_encoded :
  _encode_path_vars [PStr "a/b"] = Returned [PStr "a%2Fb"]
  /\ map req_url (calls (snd (add_corpus (PStr "id") (PStr "a/b") (Bytes "text") PNone idle)))
     = ["/v1/customizations/id/corpora/a/b"]
  /\ map req_url (calls (snd (get_custom_word (PStr "id") (Plain (PStr "a/b")) idle)))
     = ["/v1/customizations/id/words/a/b"]
  /\ map req_url (calls (snd (delete_session (PStr "a/b") idle)))
     = ["/v1/sessions/a%2Fb"].
Proof. repeat split. Qed.

(** ** The examples of the spec *)

Example add_custom_word_ieee :
  map (fun r => (req_method r, req_url r, req_data r))
      (calls (snd (add_custom_word (PStr "id") ieee idle)))
  = [("PUT", "/v1/customizations/id/words/IEEE",
      Val (PStr ("{" +:+ quoted "sounds_like" +:+ ": [" +:+ quoted "i triple e" +:+ "], "
                 +:+ quoted "display_as" +:+ ": " +:+ quoted "IEEE" +:+ "}")))].
Proof. reflexivity. Qed.

Example add_custom_words_in_order :
  map req_data (calls (snd (add_custom_words (PStr "id") [bare_word; ieee] idle)))
  = [Val (PStr (json_dumps
                  (PDict [("words",
                           PList [PDict (CustomWord.__dict__ bare_word);
                                  PDict (CustomWord.__dict__ ieee)])])))].
Proof. reflexivity. Qed.

Example list_custom_words_invalid :
  list_custom_words (PStr "id") (PStr "invalid") PNone idle
  = (Raised (KeyError "word type must be all, user, or corpora"), idle).
Proof. reflexivity. Qed.

(** ** The shape of every call *)

Lemma bind_request_discard_run method url headers params data files stream accept_json t :
  bind (request method url headers params data files stream accept_json)
       (fun _ => ret PNone) t
  = (match fst (request method url headers params data files stream accept_json t) with
     | Returned _ => Returned PNone
     | Raised e => Raised e
     end,
     snd (request method url headers params data files stream accept_json t)).
Proof. unfold bind, request, ret. now destruct (respond t _). Qed.

(** Every call either raises on its own, whatever the transport, or
    builds one descriptor, whatever the transport, hands it over and
    returns what [answered] makes of the answer. *)
Lemma call_outcome (op : operation) :
  (exists e, (guarded op = true /\ In e local_errors)
             /\ forall t, run op t = (Raised e, t))
  \/ (exists r, forall t,
         run op t = (answered op (respond t r),
                     {| respond := respond t; calls := calls t ++ [r] |})).
Proof.
  destruct op; cbn [run];
    unfold recognize, models, get_model, create_session, delete_session, get_session,
      recognize_session, create_custom_model, train_custom_model, list_custom_models,
      get_custom_model, delete_custom_model, list_corpora, add_corpus, get_corpus,
      delete_corpus, add_custom_words, add_custom_word, get_custom_word,
      delete_custom_word;
    try (destruct session_id);
    try (destruct custom_word as [[]|]);
    cbn [is_None is_str word_of _encode_path_vars];
    autorewrite with shape;
    try (left; eexists; split; [| intros t; reflexivity];
         split; [reflexivity | cbn; tauto]);
    try (right; eexists; intros t;
         first [ rewrite bind_request_ret | idtac ];
         rewrite request_run; reflexivity).
  - right.
    exists {| req_method := "DELETE"; req_url := "/v1/sessions/" +:+ quote s;
              req_headers := ∅; req_params := ∅; req_data := Val PNone;
              req_files := ∅; req_stream := false; req_accept_json := true |}.
    intros t. rewrite bind_request_discard_run, request_run.
    cbv zeta. cbn [fst snd answered].
    change (_remove_null_values is_None (default ∅ None)) with (∅ : gmap string pyval).
    change (omap id (default ∅ None)) with (∅ : gmap string part).
    change (str (PStr (quote s))) with (quote s).
    destruct (respond t _); reflexivity.
  - destruct (truthy word_type) eqn:Tw;
      [destruct (in_strs word_type ["all"; "user"; "corpora"]) eqn:Iw;
       [| left; eexists; split;
          [| intros t; now apply list_custom_words_bad_word_type];
          split; [reflexivity | cbn; tauto]] |];
      (destruct (truthy sort) eqn:Ts;
       [destruct (in_strs sort ["alphabetical"; "count"]) eqn:Is;
        [| left; eexists; split;
           [| intros t; apply list_custom_words_bad_sort; auto];
           split; [reflexivity | cbn; tauto]] |]);
      right; eexists; intros t; rewrite list_custom_words_built by auto;
      rewrite request_run; reflexivity.
Qed.

Lemma handed_outcome (op : operation) (t : Transport) (r : Request) :
  handed (run op) t r ->
  forall t', run op t' = (answered op (respond t' r),
                          {| respond := respond t'; calls := calls t' ++ [r] |}).
Proof.
  intros Hr. destruct (call_outcome op) as [(e & _ & He)|[r0 H0]].
  - exfalso. exact (not_handed _ _ _ _ (He t) Hr).
  - unfold handed in Hr. rewrite H0 in Hr. cbn [snd] in Hr.
    injection Hr as Hr. apply app_inv_head in Hr. injection Hr as ->. exact H0.
Qed.

(** The descriptor that [list_custom_words] hands over. *)
Lemma list_custom_words_handed customization_id word_type sort t r :
  handed (list_custom_words customization_id word_type sort) t r ->
  (truthy word_type = false \/ in_strs word_type ["all"; "user"; "corpora"] = true)
  /\ (truthy sort = false \/ in_strs sort ["alphabetical"; "count"] = true)
  /\ handed (request "GET" ("/v1/customizations/" +:+ str customization_id +:+ "/words")
               None
               (Some (if truthy sort
                      then <["sort" := sort]>
                             (if truthy word_type
                              then <["word_type" := word_type]> (∅ : gmap string pyval)
                              else ∅)
                      else if truthy word_type then <["word_type" := word_type]> ∅ else ∅))
               (Val PNone) None false true) t r.
Proof.
  intros Hr.
  assert (truthy word_type = false \/ in_strs word_type ["all"; "user"; "corpora"] = true)
    as Hw.
  { destruct (truthy word_type) eqn:Tw; [| now left].
    destruct (in_strs word_type ["all"; "user"; "corpora"]) eqn:Iw; [now right |].
    exfalso. eapply not_handed; [| exact Hr]. now apply list_custom_words_bad_word_type. }
  assert (truthy sort = false \/ in_strs sort ["alphabetical"; "count"] = true) as Hs.
  { destruct (truthy sort) eqn:Ts; [| now left].
    destruct (in_strs sort ["alphabetical"; "count"]) eqn:Is; [now right |].
    exfalso. eapply not_handed; [| exact Hr]. now apply list_custom_words_bad_sort. }
  split; [exact Hw |]. split; [exact Hs |].
  unfold handed in *. now rewrite list_custom_words_built in Hr.
Qed.

(** Replaces the descriptor of a call by the record that the call
    built, operation by operation. *)
Ltac explicit H :=
  match type of H with handed (run ?op) _ _ => destruct op end;
  cbn [run] in H;
  unfold recognize, models, get_model, create_session, delete_session, get_session,
    recognize_session, create_custom_model, train_custom_model, list_custom_models,
    get_custom_model, delete_custom_model, list_corpora, add_corpus, get_corpus,
    delete_corpus, add_custom_words, add_custom_word, get_custom_word,
    delete_custom_word in H;
  try match type of H with
      | context [is_None ?s] => is_var s; destruct s
      | context [word_of ?w] => is_var w; destruct w as [[]|]
      | handed (list_custom_words _ _ _) _ _ =>
          apply list_custom_words_handed in H as (? & ? & H)
      end;
  settle_call H; subst.

(** Every operation either raises on its own, leaving the transport as
    it was, or hands the transport one descriptor and no more. *)
Theorem one_request_or_none :
  forall (op : operation) (t : Transport),
    (exists e, fails_fast (run op) t e /\ invocations (run op) t = 0)
    \/ (exists r, handed (run op) t r /\ invocations (run op) t = 1).
Proof.
  intros op t.
  destruct (call_outcome op) as [(e & _ & He)|[r Hr]]; [left; exists e | right; exists r];
    unfold fails_fast, handed, invocations.
  - rewrite He. cbn. split; [reflexivity | lia].
  - rewrite Hr. cbn [snd calls]. rewrite length_app. cbn. split; [reflexivity | lia].
Qed.

(** When a request is handed over, the call returns what the transport
    answers: an error is raised unchanged, a value is returned as it
    is; [delete_session] alone returns [None] in place of the value. *)
Theorem answer_passed_on :
  forall (op : operation) (t : Transport) (r : Request),
    handed (run op) t r ->
    fst (run op t) = answered op (respond t r)
    /\ (forall e, respond t r = Raised e -> fst (run op t) = Raised e)
    /\ (forall a, respond t r = Returned a ->
                  fst (run op t)
                  = Returned (match op with DeleteSession _ => PNone | _ => a end)).
Proof.
  intros op t r Hr. rewrite (handed_outcome op t r Hr t). cbn [fst].
  split; [reflexivity |]. split.
  - intros e ->. now destruct op.
  - intros a ->. now destruct op.
Qed.

(** What every descriptor has, read off operation by operation. *)
Lemma descriptor_shape (op : operation) (t : Transport) (r : Request) :
  handed (run op) t r ->
  String.prefix "/v1/" (req_url r) = true
  /\ req_accept_json r = true
  /\ req_stream r = match op with
                    | Recognize _ _ _ _ _ _ _ _ _ _ _ _ _ _ _ _ _ => true
                    | _ => false
                    end
  /\ (req_method r = "GET" \/ req_method r = "DELETE" ->
      req_data r = Val PNone /\ req_headers r = ∅ /\ req_files r = ∅).
Proof.
  intros Hr. explicit Hr; (split; [reflexivity |]); (split; [reflexivity |]);
    (split; [reflexivity |]); cbn [req_method]; intros Hm;
    try (destruct Hm as [Hm|Hm]; discriminate Hm); repeat split.
Qed.

(** A GET or DELETE request has no body, no header of its own, no file
    part, and is not streamed. *)
Theorem reads_and_deletes_carry_nothing :
  forall (op : operation) (t : Transport) (r : Request),
    handed (run op) t r ->
    req_method r = "GET" \/ req_method r = "DELETE" ->
    req_data r = Val PNone
    /\ req_headers r = ∅
    /\ req_files r = ∅
    /\ req_stream r = false.
Proof.
  intros op t r Hr Hm.
  destruct (descriptor_shape op t r Hr) as (_ & _ & S & H).
  destruct (H Hm) as (D & Hh & F). repeat split; try assumption.
  rewrite S. destruct op; try reflexivity.
  exfalso. unfold handed in Hr. cbn [run] in Hr. unfold recognize in Hr.
  rewrite request_run in Hr. apply (f_equal (fun x => last (calls x))) in Hr.
  cbn [snd calls] in Hr. rewrite !last_snoc in Hr. injection Hr as <-.
  cbn [req_method] in Hm. destruct Hm as [Hm|Hm]; discriminate Hm.
Qed.

(** Every request goes to a path under [/v1/]. *)
Theorem every_url_is_versioned :
  forall (op : operation) (t : Transport) (r : Request),
    handed (run op) t r ->
    String.prefix "/v1/" (req_url r) = true.
Proof. intros op t r Hr. apply (descriptor_shape op t r Hr). Qed.




(** Every request asks for a JSON answer, and [recognize] is the only
    operation whose answer is streamed. *)
Theorem request_flags :
  forall (op : operation) (t : Transport) (r : Request),
    handed (run op) t r ->
    req_accept_json r = true
    /\ req_stream r = match op with
                      | Recognize _ _ _ _ _ _ _ _ _ _ _ _ _ _ _ _ _ => true
                      | _ => false
                      end.
Proof.
  intros op t r Hr. destruct (descriptor_shape op t r Hr) as (_ & A & S & _). now split.
Qed.

Lemma no_parts (k : string) (p : part) :
  omap id (default (∅ : gmap string (option part)) None) !! k = Some p -> False.
Proof. rewrite lookup_omap. cbn [default from_option]. now rewrite lookup_empty. Qed.

(** File parts are sent by [recognize_session] only, and under the
    names [metadata] and [upload] only. *)
Theorem file_parts_only_in_session_recognition :
  forall (op : operation) (t : Transport) (r : Request) (k : string) (p : part),
    handed (run op) t r ->
    req_files r !! k = Some p ->
    (k = "metadata" \/ k = "upload")
    /\ match op with
       | RecognizeSession _ _ _ _ _ _ _ _ _ _ _ _ _ _ _ _ _ _ _ => True
       | _ => False
       end.
Proof.
  intros op t r k p Hr Hk. explicit Hr; cbn [req_files] in Hk;
    try (exfalso; exact (no_parts k p Hk)).
  split; [| exact I]. rewrite lookup_omap in Hk.
  change (default ∅ (Some ?d)) with d in Hk. unfold dict in Hk. cbn [list_to_map foldr] in Hk.
  destruct (decide ("metadata" = k)) as [|N1]; [now left |].
  destruct (decide ("upload" = k)) as [|N2]; [now right |].
  rewrite !lookup_insert_ne, lookup_empty in Hk by assumption. discriminate Hk.
Qed.

(** A supplied option of a dict literal is a key of the stripped dict. *)
Ltac sent_item Hk :=
  unfold opt in Hk;
  match type of Hk with
  | _ ∈ (if is_None ?a then _ else _) =>
      let E := fresh "E" in
      destruct (is_None a) eqn:E;
      [now apply elem_of_nil in Hk |];
      apply list_elem_of_singleton in Hk; subst;
      eexists; split;
      [apply stripped_lookup; split; [reflexivity | cbn [snd]; rewrite ?convert_list_None; exact E]
      | intros N; apply (f_equal is_None) in N;
        cbn [snd] in N; rewrite ?convert_list_None in N; cbn [is_None] in N; congruence]
  end.

(** Outside [list_custom_words], a query parameter that the caller
    supplied with a value other than [None] is sent, and not as
    [None]. *)
Theorem supplied_parameters_are_sent :
  forall (op : operation) (t : Transport) (r : Request) (k : string),
    handed (run op) t r ->
    k ∈ supplied op ->
    match op with ListCustomWords _ _ _ => False | _ => True end ->
    exists v, req_params r !! k = Some v /\ v <> PNone.
Proof.
  intros op t r k Hr Hk Hop. explicit Hr; try contradiction; cbn [supplied] in Hk;
    try (now apply elem_of_nil in Hk);
    cbn [req_params]; change (default ∅ (Some ?d)) with d;
    rewrite ?elem_of_app in Hk;
    repeat (destruct Hk as [Hk|Hk]; [sent_item Hk |]);
    try sent_item Hk.
Qed.

(** ** Resources and their URLs *)

Lemma append_assoc (a b c : string) : (a +:+ b) +:+ c = a +:+ (b +:+ c).
Proof.
  induction a as [|x a IH]; [reflexivity |].
  change (String x ((a +:+ b) +:+ c) = String x (a +:+ (b +:+ c))). now rewrite IH.
Qed.

(** Shows the descriptor that a call without a guard hands over. *)
Ltac hand_over :=
  unfold handed, get_model, models, get_custom_model, delete_custom_model,
    train_custom_model, list_custom_models, list_corpora, add_corpus, get_corpus,
    delete_corpus, add_custom_words, add_custom_word, get_custom_word,
    delete_custom_word, get_session, delete_session, create_session;
  cbn [is_None is_str word_of _encode_path_vars];
  autorewrite with shape;
  rewrite ?bind_request_ret, ?bind_request_discard, ?request_run;
  reflexivity.

(** A custom model is fetched and deleted by descriptors that differ in
    the method only, and it is trained at the URL of the model followed
    by [/train]. *)
Theorem custom_model_urls :
  forall (modelid weight word_type : pyval) (t : Transport),
    exists rg rd rt,
      handed (get_custom_model modelid) t rg
      /\ handed (delete_custom_model modelid) t rd
      /\ handed (train_custom_model modelid weight word_type) t rt
      /\ req_method rg = "GET"
      /\ rd = with_method "DELETE" rg
      /\ req_method rt = "POST"
      /\ req_url rt = req_url rg +:+ "/train".
Proof.
  intros. do 3 eexists.
  split; [hand_over |]. split; [hand_over |]. split; [hand_over |].
  cbn [req_method req_url]. repeat split.
Qed.

(** The corpora of a customization are listed under the URL of the
    customization; a corpus is added, fetched and deleted at the URL of
    the listing followed by its name, fetching and deleting differing
    in the method only. *)
Theorem corpus_urls :
  forall (customization_id corpus_name allow_overwrite : pyval) (file_data : payload)
         (t : Transport),
    exists rm rl ra rg rd,
      handed (get_custom_model customization_id) t rm
      /\ handed (list_corpora customization_id) t rl
      /\ handed (add_corpus customization_id corpus_name file_data allow_overwrite) t ra
      /\ handed (get_corpus customization_id corpus_name) t rg
      /\ handed (delete_corpus customization_id corpus_name) t rd
      /\ req_url rl = req_url rm +:+ "/corpora"
      /\ req_url rg = req_url rl +:+ "/" +:+ str corpus_name
      /\ req_url ra = req_url rg
      /\ req_method ra = "POST"
      /\ req_method rg = "GET"
      /\ rd = with_method "DELETE" rg.
Proof.
  intros. do 5 eexists.
  split; [hand_over |]. split; [hand_over |]. split; [hand_over |].
  split; [hand_over |]. split; [hand_over |].
  cbn [req_method req_url]. rewrite ?append_assoc. repeat split.
Qed.

(** A word is added, fetched and deleted at the URL to which words are
    added in bulk, followed by the word of the record; fetching and
    deleting differ in the method only. *)
Theorem custom_word_urls :
  forall (customization_id : pyval) (custom_word : CustomWord)
         (custom_words : list CustomWord) (t : Transport),
    exists rs ra rg rd,
      handed (add_custom_words customization_id custom_words) t rs
      /\ handed (add_custom_word customization_id custom_word) t ra
      /\ handed (get_custom_word customization_id (Record_ custom_word)) t rg
      /\ handed (delete_custom_word customization_id (Record_ custom_word)) t rd
      /\ req_url ra = req_url rs +:+ "/" +:+ str (CustomWord.word custom_word)
      /\ req_url rg = req_url ra
      /\ req_method rs = "POST"
      /\ req_method ra = "PUT"
      /\ req_method rg = "GET"
      /\ rd = with_method "DELETE" rg.
Proof.
  intros. do 4 eexists.
  split; [hand_over |]. split; [hand_over |]. split; [hand_over |]. split; [hand_over |].
  cbn [req_method req_url]. rewrite ?append_assoc. repeat split.
Qed.

(** A model is fetched by a bare GET at the URL of the model listing
    followed by its identifier. *)
Theorem model_urls :
  forall (model_id : pyval) (t : Transport),
    exists rl rg,
      handed models t rl
      /\ handed (get_model model_id) t rg
      /\ req_method rl = "GET"
      /\ rg = {| req_method := "GET";
                 req_url := req_url rl +:+ "/" +:+ str model_id;
                 req_headers := ∅; req_params := ∅; req_data := Val PNone;
                 req_files := ∅; req_stream := false; req_accept_json := true |}.
Proof.
  intros. do 2 eexists. split; [hand_over |]. split; [hand_over |].
  cbn [req_method req_url]. repeat split.
Qed.

(** The status of a session is read from, and audio is sent to, the
    URL at which the session is deleted followed by [/recognize]; the
    audio is the body of the request as it was given. *)
Theorem session_urls :
  forall (session : string) (t : Transport) (rd rg rr : Request)
         (transfer_encoding : pyval) (audio : payload) (content_type : option pyval)
         (sequence_id inactivity_timeout keywords keywords_threshold
          max_alternatives word_alternatives_threshold word_confidence
          timestamps profanity_filter smart_formatting speaker_labels
          metadata : pyval)
         (upload : payload) (upload_content_type upload_filename : pyval),
    handed (delete_session (PStr session)) t rd ->
    handed (get_session (PStr session)) t rg ->
    handed (recognize_session (PStr session) transfer_encoding audio content_type
              sequence_id inactivity_timeout keywords keywords_threshold
              max_alternatives word_alternatives_threshold word_confidence
              timestamps profanity_filter smart_formatting speaker_labels
              metadata upload upload_content_type upload_filename) t rr ->
    req_url rg = req_url rd +:+ "/recognize"
    /\ req_url rr = req_url rg
    /\ req_method rd = "DELETE" /\ req_method rg = "GET" /\ req_method rr = "POST"
    /\ req_data rr = audio.
Proof.
  intros * Hd Hg Hr.
  unfold delete_session in Hd. settle_call Hd.
  unfold get_session in Hg. settle_call Hg.
  unfold handed in Hr. rewrite recognize_session_run in Hr. apply handed_request in Hr.
  subst. cbn [req_method req_url req_data]. rewrite ?append_assoc. repeat split.
Qed.

(** ** Words by name or by record *)

(** [get_custom_word] and [delete_custom_word] do the same for a word
    given as a string and for a record that holds this word. *)
Theorem word_by_name_or_record :
  forall (customization_id : pyval) (word : string) (sounds_like display_as : pyval)
         (t : Transport),
    get_custom_word customization_id (Plain (PStr word)) t
    = get_custom_word customization_id
        (Record_ (CustomWord.__init__ (PStr word) sounds_like display_as)) t
    /\ delete_custom_word customization_id (Plain (PStr word)) t
       = delete_custom_word customization_id
           (Record_ (CustomWord.__init__ (PStr word) sounds_like display_as)) t.
Proof. intros. split; reflexivity. Qed.

(** Given a plain value that is not a string, [get_custom_word] and
    [delete_custom_word] raise [AttributeError] and the transport is
    not invoked. *)
Theorem plain_word_must_be_a_string :
  forall (customization_id word : pyval) (t : Transport),
    is_str word = false ->
    fails_fast (get_custom_word customization_id (Plain word)) t AttributeError
    /\ fails_fast (delete_custom_word customization_id (Plain word)) t AttributeError.
Proof.
  intros cid w t H. unfold fails_fast, get_custom_word, delete_custom_word.
  cbn [word_of]. rewrite H. split; reflexivity.
Qed.

Lemma plain_word_must_be_a_string_witness :
  fails_fast (get_custom_word (PStr "id") (Plain PNone)) idle AttributeError
  /\ fails_fast (delete_custom_word (PStr "id") (Plain PNone)) idle AttributeError.
Proof. exact (plain_word_must_be_a_string (PStr "id") PNone idle eq_refl). Defined.

(** ** Filters of the word listing *)

Lemma in_strs_elem (v : pyval) (l : list string) :
  in_strs v l = true -> exists s, v = PStr s /\ s ∈ l.
Proof.
  destruct v; try discriminate. cbn [in_strs]. intros H.
  apply existsb_exists in H as (x & Hx & E). apply String.eqb_eq in E. subst.
  eexists. split; [reflexivity |]. now apply list_elem_of_In.
Qed.

(** The only query parameters that [list_custom_words] sends are
    [word_type] and [sort], each with the caller's value, which is a
    string of its enumeration. *)
Theorem list_custom_words_sends_enumerated_values :
  forall (customization_id word_type sort : pyval) (t : Transport) (r : Request)
         (k : string) (v : pyval),
    handed (list_custom_words customization_id word_type sort) t r ->
    req_params r !! k = Some v ->
    (k = "word_type" /\ v = word_type
     /\ exists s, v = PStr s /\ s ∈ ["all"; "user"; "corpora"])
    \/ (k = "sort" /\ v = sort
        /\ exists s, v = PStr s /\ s ∈ ["alphabetical"; "count"]).
Proof.
  intros cid wt st t r k v Hr Hk.
  destruct (list_custom_words_handed _ _ _ _ _ Hr) as (Hw & Hs & _).
  destruct (list_custom_words_params _ _ _ _ _ Hr _ _ Hk) as [(-> & -> & T)|(-> & -> & T)].
  - left. repeat split. destruct Hw as [Hw|Hw]; [congruence |]. now apply in_strs_elem.
  - right. repeat split. destruct Hs as [Hs|Hs]; [congruence |]. now apply in_strs_elem.
Qed.

(** When the word type and the sort are both refused, the error of
    [list_custom_words] is the one of the word type. *)
Theorem list_custom_words_checks_word_type_first :
  forall (customization_id word_type sort : pyval) (t : Transport),
    truthy word_type = true ->
    in_strs word_type ["all"; "user"; "corpora"] = false ->
    truthy sort = true ->
    in_strs sort ["alphabetical"; "count"] = false ->
    fails_fast (list_custom_words customization_id word_type sort) t
      (KeyError "word type must be all, user, or corpora").
Proof.
  intros cid wt st t Tw Iw _ _. now apply list_custom_words_bad_word_type.
Qed.

Lemma list_custom_words_checks_word_type_first_witness :
  fails_fast (list_custom_words (PStr "id") (PStr "every") (PStr "newest")) idle
    (KeyError "word type must be all, user, or corpora").
Proof.
  exact (list_custom_words_checks_word_type_first (PStr "id") (PStr "every") (PStr "newest")
           idle eq_refl eq_refl eq_refl eq_refl).
Defined.

(** ** Custom models *)


(** The operations with a JSON body, [create_custom_model],
    [add_custom_words] and [add_custom_word], send the header
    [content-type: application/json] and nothing else besides the body:
    no query parameter, no file part. *)
Theorem json_bodies_are_labelled :
  forall (op : operation) (t : Transport) (r : Request),
    handed (run op) t r ->
    match op with
    | CreateCustomModel _ _ _ | AddCustomWords _ _ | AddCustomWord _ _ => True
    | _ => False
    end ->
    req_headers r = {["content-type" := PStr "application/json"]}
    /\ req_params r = ∅
    /\ req_files r = ∅
    /\ exists d, req_data r = Val (PStr (json_dumps (PDict d))).
Proof.
  intros op t r Hr Hop. explicit Hr; try contradiction; repeat split; eexists; reflexivity.
Qed.

(** ** The parts of a session recognition *)

Section SessionParts.
Variables (session : string) (transfer_encoding : pyval) (audio : payload).
Variable content_type : option pyval.
Variables sequence_id inactivity_timeout keywords keywords_threshold
  max_alternatives word_alternatives_threshold word_confidence timestamps
  profanity_filter smart_formatting speaker_labels metadata : pyval.
Variable upload : payload.
Variables upload_content_type upload_filename : pyval.
Variables (t : Transport) (r : Request).

Hypothesis Hr :
  handed (recognize_session (PStr session) transfer_encoding audio content_type
            sequence_id inactivity_timeout keywords keywords_threshold
            max_alternatives word_alternatives_threshold word_confidence
            timestamps profanity_filter smart_formatting speaker_labels
            metadata upload upload_content_type upload_filename) t r.

(** The two parts, as the call leaves them. *)
Lemma recognize_session_parts :
  req_files r !! "metadata"
  = (if truthy metadata then Some (PNone, Val metadata, PStr "text/plain") else None)
  /\ req_files r !! "upload"
     = (if payload_truthy upload
        then Some (match name_attr upload with
                   | Some name => if negb (truthy upload_filename)
                                  then name else upload_filename
                   | None => upload_filename
                   end,
                   upload,
                   if truthy upload_content_type then upload_content_type
                   else PStr "application/octet-stream")
        else None).
Proof.
  unfold handed in Hr. rewrite recognize_session_run in Hr.
  apply handed_request in Hr. subst r. cbn [req_files].
  apply parts_lookup.
Qed.
End SessionParts.

(** In [recognize_session] a falsy metadata gives no metadata part and
    a falsy upload gives no upload part, whatever file name and content
    type come with it; with both falsy no part is sent; the audio is
    the body in every case. *)
Theorem recognize_session_absent_parts :
  forall (session : string) (transfer_encoding : pyval) (audio : payload)
         (content_type : option pyval)
         (sequence_id inactivity_timeout keywords keywords_threshold
          max_alternatives word_alternatives_threshold word_confidence
          timestamps profanity_filter smart_formatting speaker_labels
          metadata : pyval)
         (upload : payload) (upload_content_type upload_filename : pyval)
         (t : Transport) (r : Request),
    handed (recognize_session (PStr session) transfer_encoding audio content_type
              sequence_id inactivity_timeout keywords keywords_threshold
              max_alternatives word_alternatives_threshold word_confidence
              timestamps profanity_filter smart_formatting speaker_labels
              metadata upload upload_content_type upload_filename) t r ->
    (truthy metadata = false -> req_files r !! "metadata" = None)
    /\ (payload_truthy upload = false -> req_files r !! "upload" = None)
    /\ (truthy metadata = false -> payload_truthy upload = false -> req_files r = ∅)
    /\ req_data r = audio.
Proof.
  intros * Hr. destruct (recognize_session_parts _ _ _ _ _ _ _ _ _ _ _ _ _ _ _ _ _ _ _ _ _ Hr)
    as [Pm Pu].
  split; [intros H; etransitivity; [exact Pm |]; now rewrite H |].
  split; [intros H; etransitivity; [exact Pu |]; now rewrite H |].
  unfold handed in Hr. rewrite recognize_session_run in Hr.
  apply handed_request in Hr. subst r. cbn [req_files req_data]. split; [| reflexivity].
  intros -> ->. reflexivity.
Qed.

(** In the upload part of [recognize_session] a truthy file name is
    kept even when the payload has a name, a payload without a name
    leaves the file name as it was given, and a truthy content type is
    kept. *)
Theorem recognize_session_given_values_win :
  forall (session : string) (transfer_encoding : pyval) (audio : payload)
         (content_type : option pyval)
         (sequence_id inactivity_timeout keywords keywords_threshold
          max_alternatives word_alternatives_threshold word_confidence
          timestamps profanity_filter smart_formatting speaker_labels
          metadata : pyval)
         (upload : payload) (upload_content_type upload_filename : pyval)
         (t : Transport) (r : Request),
    handed (recognize_session (PStr session) transfer_encoding audio content_type
              sequence_id inactivity_timeout keywords keywords_threshold
              max_alternatives word_alternatives_threshold word_confidence
              timestamps profanity_filter smart_formatting speaker_labels
              metadata upload upload_content_type upload_filename) t r ->
    payload_truthy upload = true ->
    exists filename mime_type,
      req_files r !! "upload" = Some (filename, upload, mime_type)
      /\ (truthy upload_filename = true -> filename = upload_filename)
      /\ (name_attr upload = None -> filename = upload_filename)
      /\ (truthy upload_content_type = true -> mime_type = upload_content_type).
Proof.
  intros * Hr Hu.
  destruct (recognize_session_parts _ _ _ _ _ _ _ _ _ _ _ _ _ _ _ _ _ _ _ _ _ Hr)
    as [_ Pu].
  rewrite Hu in Pu. do 2 eexists. split; [exact Pu |]. repeat split.
  - intros ->. now destruct (name_attr upload).
  - now intros ->.
  - now intros ->.
Qed.

(** ** Instances *)

Lemma answer_passed_on_witness :
  fst (run fetch_corpus idle) = answered fetch_corpus (respond idle fetch_corpus_request)
  /\ fst (run fetch_corpus idle) = Returned PNone.
Proof.
  assert (handed (run fetch_corpus) idle fetch_corpus_request) as H by reflexivity.
  destruct (answer_passed_on fetch_corpus idle fetch_corpus_request H) as (E & _ & R).
  split; [exact E | exact (R PNone eq_refl)].
Defined.



Lemma reads_and_deletes_carry_nothing_witness :
  req_data fetch_corpus_request = Val PNone
  /\ req_headers fetch_corpus_request = ∅
  /\ req_files fetch_corpus_request = ∅
  /\ req_stream fetch_corpus_request = false.
Proof.
  apply (reads_and_deletes_carry_nothing fetch_corpus idle); [reflexivity | left; reflexivity].
Defined.

Lemma every_url_is_versioned_witness :
  String.prefix "/v1/" (req_url multipart_request) = true.
Proof. apply (every_url_is_versioned multipart_recognition idle). reflexivity. Defined.

Lemma request_flags_witness :
  req_accept_json recognize_with_model_request = true
  /\ req_stream recognize_with_model_request = true.
Proof. apply (request_flags recognize_with_model idle). reflexivity. Defined.

Lemma file_parts_only_in_session_recognition_witness :
  ("upload" = "metadata" \/ "upload" = "upload") /\ True.
Proof.
  apply (file_parts_only_in_session_recognition multipart_recognition idle multipart_request
           "upload" (PStr "speech.wav", speech_file, PStr "application/octet-stream"));
    reflexivity.
Defined.

Lemma supplied_parameters_are_sent_witness :
  exists v, req_params recognize_with_model_request !! "model" = Some v /\ v <> PNone.
Proof.
  apply (supplied_parameters_are_sent recognize_with_model idle).
  - reflexivity.
  - apply list_elem_of_here.
  - exact I.
Defined.

Lemma list_custom_words_sends_enumerated_values_witness :
  ("sort" = "word_type" /\ PStr "count" = PStr "user"
   /\ exists s, PStr "count" = PStr s /\ s ∈ ["all"; "user"; "corpora"])
  \/ ("sort" = "sort" /\ PStr "count" = PStr "count"
      /\ exists s, PStr "count" = PStr s /\ s ∈ ["alphabetical"; "count"]).
Proof.
  apply (list_custom_words_sends_enumerated_values (PStr "id") (PStr "user") (PStr "count")
           idle user_words_request "sort" (PStr "count")); reflexivity.
Defined.

Lemma json_bodies_are_labelled_witness :
  req_headers add_ieee_request = {["content-type" := PStr "application/json"]}
  /\ req_params add_ieee_request = ∅
  /\ req_files add_ieee_request = ∅
  /\ exists d, req_data add_ieee_request = Val (PStr (json_dumps (PDict d))).
Proof.
  apply (json_bodies_are_labelled (AddCustomWord (PStr "id") ieee) idle);
    [reflexivity | exact I].
Defined.

Lemma session_urls_witness :
  req_url multipart_request = "/v1/sessions/s1" +:+ "/recognize"
  /\ req_data multipart_request = Val PNone.
Proof.
  destruct (session_urls "s1" idle
              {| req_method := "DELETE"; req_url := "/v1/sessions/s1";
                 req_headers := ∅; req_params := ∅; req_data := Val PNone;
                 req_files := ∅; req_stream := false; req_accept_json := true |}
              {| req_method := "GET"; req_url := "/v1/sessions/s1/recognize";
                 req_headers := ∅; req_params := ∅; req_data := Val PNone;
                 req_files := ∅; req_stream := false; req_accept_json := true |}
              multipart_request
              PNone (Val PNone) None
              PNone PNone PNone PNone PNone PNone PNone PNone PNone PNone PNone
              (PStr "{}") speech_file PNone PNone eq_refl eq_refl eq_refl)
    as (E1 & E2 & _ & _ & _ & D).
  split; [now rewrite E2, E1 | exact D].
Defined.

Lemma recognize_session_absent_parts_witness :
  req_files plain_recognition_request !! "metadata" = None
  /\ req_files plain_recognition_request !! "upload" = None
  /\ req_files plain_recognition_request = ∅
  /\ req_data plain_recognition_request = Bytes "RIFF".
Proof.
  destruct (recognize_session_absent_parts "s1" PNone (Bytes "RIFF") (Some (PStr "audio/wav"))
              PNone PNone PNone PNone PNone PNone PNone PNone PNone PNone PNone
              PNone (Val PNone) (PStr "audio/wav") (PStr "a.wav") idle
              plain_recognition_request eq_refl)
    as (M & U & E & D).
  split; [exact (M eq_refl) |]. split; [exact (U eq_refl) |].
  split; [exact (E eq_refl eq_refl) | exact D].
Defined.

Lemma recognize_session_given_values_win_witness :
  exists filename mime_type,
    req_files named_upload_request !! "upload" = Some (filename, speech_file, mime_type)
    /\ filename = PStr "talk.flac"
    /\ mime_type = PStr "audio/flac".
Proof.
  assert (handed (recognize_session (PStr "s1") PNone (Val PNone) None
                    PNone PNone PNone PNone PNone PNone PNone PNone PNone PNone PNone
                    PNone speech_file (PStr "audio/flac") (PStr "talk.flac"))
            idle named_upload_request) as H by reflexivity.
  destruct (recognize_session_given_values_win _ _ _ _ _ _ _ _ _ _ _ _ _ _ _ _ _ _ _ _ _ H
              eq_refl)
    as (filename & mime & P & F & _ & C).
  exists filename, mime. split; [exact P |]. split; [exact (F eq_refl) | exact (C eq_refl)].
Defined.
